(** * ics.py: the content-line grammar, the container tree and the timeline

    A shallow embedding of [ics/grammar/parse.py] (line unfolding, content-line
    tokenizing, the recursive BEGIN/END block parser and the list-like
    [Container]) together with the interval queries exercised by
    [tests/timeline.py].

    Conventions of the embedding.
    - A Python [str] is a [string]; its characters are the 256 code points
      an [ascii] can hold.
    - An exception is a value of [exn]; a call that may raise returns a
      [result].
    - A generator is a [gen]: the finite run of values it yields, ended
      either by exhaustion ([Stop]) or by the exception raised when the
      consumer asks for the next value ([Raise]).  Nothing of a generator's
      body runs before its first value is requested, so a generator whose
      body starts by raising is [Raise e].
    - Python objects that the code receives without knowing their class are
      values of [pyobj]. *)

From Stdlib Require Import String Ascii List ZArith Lia Bool Arith.
From Stdlib Require Import Sorting.Sorted Sorting.Permutation.
From Stdlib Require Import DecimalString.
Import ListNotations.
Open Scope string_scope.

Set Implicit Arguments.

(** ** Python primitives *)

Module Py.

(** The exceptions that can leave the code under study. *)
Inductive exn : Type :=
| ParseError (msg : string)      (* ics.grammar.parse.ParseError *)
| ValueError (msg : string)
| TypeError (msg : string)
| AttributeError (msg : string)
| IndexError (msg : string)
| KeyError.

Inductive result (A : Type) : Type :=
| Ok (a : A)
| Err (e : exn).

Arguments Ok {A} a.
Arguments Err {A} e.

Definition bind {A B : Type} (m : result A) (k : A -> result B) : result B :=
  match m with
  | Ok a => k a
  | Err e => Err e
  end.

(** A generator over a finite source. *)
Inductive gen (A : Type) : Type :=
| Stop
| Yield (a : A) (rest : gen A)
| Raise (e : exn).

Arguments Stop {A}.
Arguments Yield {A} a rest.
Arguments Raise {A} e.

(** [prepend l g] yields the elements of [l], then goes on as [g]. *)
Definition prepend {A : Type} (l : list A) (g : gen A) : gen A :=
  fold_right Yield g l.

Definition of_list {A : Type} (l : list A) : gen A := prepend l Stop.

(** Number of values a generator can still yield. *)
Fixpoint size {A : Type} (g : gen A) : nat :=
  match g with
  | Yield _ rest => S (size rest)
  | Stop | Raise _ => 0
  end.

(** *** Characters and [str] methods *)

Definition code (c : ascii) : nat := nat_of_ascii c.

Definition between (lo hi : nat) (c : ascii) : bool :=
  Nat.leb lo (code c) && Nat.leb (code c) hi.

(** [str.isspace] on one character (code points below 256). *)
Definition isspace (c : ascii) : bool :=
  between 9 13 c || between 28 32 c
  || Nat.eqb (code c) 133 || Nat.eqb (code c) 160.

Definition CR : ascii := ascii_of_nat 13.
Definition LF : ascii := ascii_of_nat 10.
Definition TAB : ascii := ascii_of_nat 9.
Definition SPACE : ascii := " "%char.
Definition DQUOTE : ascii := ascii_of_nat 34.

Definition is_cr (c : ascii) : bool := Ascii.eqb c CR.

(** [s.lstrip(chars)], [s.rstrip(chars)] and [s.strip(chars)], the set of
    characters given as a predicate. *)
Fixpoint lstrip (p : ascii -> bool) (s : string) : string :=
  match s with
  | EmptyString => EmptyString
  | String c s' => if p c then lstrip p s' else s
  end.

Fixpoint rstrip (p : ascii -> bool) (s : string) : string :=
  match s with
  | EmptyString => EmptyString
  | String c s' =>
      match rstrip p s' with
      | EmptyString => if p c then EmptyString else String c EmptyString
      | r => String c r
      end
  end.

Definition strip (p : ascii -> bool) (s : string) : string :=
  rstrip p (lstrip p s).

(** [c in s] for a character [c]. *)
Fixpoint contains (c : ascii) (s : string) : bool :=
  match s with
  | EmptyString => false
  | String d s' => Ascii.eqb c d || contains c s'
  end.

(** [str.upper], exact on the ASCII range. *)
Definition upper_char (c : ascii) : ascii :=
  if between 97 122 c then ascii_of_nat (code c - 32) else c.

Fixpoint upper (s : string) : string :=
  match s with
  | EmptyString => EmptyString
  | String c s' => String (upper_char c) (upper s')
  end.

(** [sep.join(l)]. *)
Fixpoint join (sep : string) (l : list string) : string :=
  match l with
  | [] => EmptyString
  | [x] => x
  | x :: l' => x ++ sep ++ join sep l'
  end.

(** Line boundaries of [str.splitlines] (code points below 256). *)
Definition is_linebreak (c : ascii) : bool :=
  between 10 13 c || between 28 30 c || Nat.eqb (code c) 133.

Definition starts_with_lf (s : string) : bool :=
  match s with
  | String c _ => Ascii.eqb c LF
  | EmptyString => false
  end.

(** [s.splitlines()]: a CR LF pair is one boundary, and a final boundary
    opens no further line. *)
Fixpoint splitlines (s : string) : list string :=
  match s with
  | EmptyString => []
  | String c s' =>
      if is_linebreak c then
        if Ascii.eqb c CR && starts_with_lf s' then splitlines s'
        else EmptyString :: splitlines s'
      else
        match splitlines s' with
        | [] => [String c EmptyString]
        | l :: ls => String c l :: ls
        end
  end.

(** ["%s" % nr] for a natural number. *)
Definition str_of_nat (n : nat) : string :=
  NilEmpty.string_of_uint (Nat.to_uint n).

End Py.

Export Py.

Notation "x <- m ;; k" := (bind m (fun x => k))
  (at level 61, m at next level, right associativity).

(** ** Dictionaries

    A [dict] keeps its keys in insertion order and holds each key once:
    an association list without repeated keys.  Assigning to a key that is
    present replaces its value in place. *)

Module Dict.

Definition t (V : Type) : Type := list (string * V).

Fixpoint get {V : Type} (d : t V) (k : string) : option V :=
  match d with
  | [] => None
  | (k', v) :: d' => if String.eqb k' k then Some v else get d' k
  end.

Fixpoint set {V : Type} (d : t V) (k : string) (v : V) : t V :=
  match d with
  | [] => [(k, v)]
  | (k', v') :: d' =>
      if String.eqb k' k then (k', v) :: d' else (k', v') :: set d' k v
  end.

Definition keys {V : Type} (d : t V) : list string := map fst d.

End Dict.

Definition list_eqb {A B : Type} (eq : A -> B -> bool) :
  list A -> list B -> bool :=
  fix go (l1 : list A) (l2 : list B) : bool :=
    match l1, l2 with
    | [], [] => true
    | x :: l1', y :: l2' => eq x y && go l1' l2'
    | _, _ => false
    end.

(** ** The content-line grammar *)

Module Grammar.

(** What [GRAMMAR.parse] returns: every leaf is the sequence of the
    characters matched, which [interpret_ast] joins. *)
Record param_ast : Type := mk_param {
  p_name : list string;
  p_values : list (list string)
}.

Record ast : Type := mk_ast {
  a_name : list string;
  a_params : list param_ast;
  a_value : list string
}.

Definition is_name_char (c : ascii) : bool :=
  between 65 90 c || between 97 122 c || between 48 57 c
  || Ascii.eqb c "-"%char.

(** Characters of a bare parameter value: all but the double quote and the
    three separators. *)
Definition is_safe_char (c : ascii) : bool :=
  negb (Ascii.eqb c DQUOTE || Ascii.eqb c ","%char
        || Ascii.eqb c ":"%char || Ascii.eqb c ";"%char).

Definition ch (c : ascii) : string := String c EmptyString.

Inductive state : Type :=
| InName (name : list string)
| InParamName (name : list string) (params : list param_ast)
              (pname : list string)
| InBare (name : list string) (params : list param_ast)
         (pname : list string) (values : list (list string))
         (cur : list string)
| InQuoted (name : list string) (params : list param_ast)
           (pname : list string) (values : list (list string))
           (cur : list string)
| AfterQuoted (name : list string) (params : list param_ast)
              (pname : list string) (values : list (list string))
| InValue (name : list string) (params : list param_ast)
          (value : list string)
| Failed.

Definition is_nil {A : Type} (l : list A) : bool :=
  match l with [] => true | _ => false end.

(** After a parameter value: a comma opens the next value of the same
    parameter, a semicolon the next parameter, a colon the value. *)
Definition after_value (name : list string) (params : list param_ast)
  (pname : list string) (values : list (list string)) (c : ascii) : state :=
  if Ascii.eqb c ","%char then InBare name params pname values []
  else if Ascii.eqb c ";"%char then
    InParamName name (params ++ [mk_param pname values]) []
  else if Ascii.eqb c ":"%char then
    InValue name (params ++ [mk_param pname values]) []
  else Failed.

Definition step (st : state) (c : ascii) : state :=
  match st with
  | InName name =>
      if is_name_char c then InName (name ++ [ch c])
      else if is_nil name then Failed
      else if Ascii.eqb c ";"%char then InParamName name [] []
      else if Ascii.eqb c ":"%char then InValue name [] []
      else Failed
  | InParamName name params pname =>
      if is_name_char c then InParamName name params (pname ++ [ch c])
      else if is_nil pname then Failed
      else if Ascii.eqb c "="%char then InBare name params pname [] []
      else Failed
  | InBare name params pname values cur =>
      if is_safe_char c then InBare name params pname values (cur ++ [ch c])
      else if Ascii.eqb c DQUOTE then
        if is_nil cur then InQuoted name params pname values [] else Failed
      else after_value name params pname (values ++ [cur]) c
  | InQuoted name params pname values cur =>
      if Ascii.eqb c DQUOTE then AfterQuoted name params pname (values ++ [cur])
      else InQuoted name params pname values (cur ++ [ch c])
  | AfterQuoted name params pname values =>
      after_value name params pname values c
  | InValue name params value => InValue name params (value ++ [ch c])
  | Failed => Failed
  end.

Definition finish (st : state) : option ast :=
  match st with
  | InValue name params value => Some (mk_ast name params value)
  | _ => None
  end.

(** Modelled from the spec: the grammar [contentline.ebnf] compiled into
    [GRAMMAR], which is not among the sources.  A logical line is a
    name, any number of groups [;PARAM-NAME=VALUE,...,VALUE] of one or more
    comma-separated values, a colon and the value: the name and the parameter
    names are one or more letters, digits or hyphens; a parameter value is
    bare or quoted, and a quoted value stands for the characters between
    its quotes; the value is free text up to the end of the line.  The
    grammar is regular, and is run here as a character-driven recognizer.
    [None] is a line that fails to tokenize. *)
Definition GRAMMAR_parse (line : string) : option ast :=
  finish (fold_left step (list_ascii_of_string line) (InName [])).

(** A state of the recognizer, with the parameters [asts] read, from which
    a semicolon opens the next parameter and a colon the value. *)
Definition ready (n : list string) (st : state) (asts : list param_ast)
  : Prop :=
  step st ";"%char = InParamName n asts []
  /\ step st ":"%char = InValue n asts [].

End Grammar.

(** ** ContentLine *)

Module ContentLine.

Record t : Type := mk {
  name : string;
  params : Dict.t (list string);
  value : string
}.

(** [ContentLine(name, params, value)]: the [name] attribute goes through the
    converter [str.upper]. *)
Definition new (name : string) (params : Dict.t (list string))
  (value : string) : t :=
  mk (upper name) params value.

(** [__str__] *)
Definition str (self : t) : string :=
  let params_str :=
    fold_left
      (fun params_str pname =>
         params_str ++ ";" ++ pname ++ "="
           ++ join "," (match Dict.get (params self) pname with
                        | Some values => values
                        | None => []
                        end))
      (Dict.keys (params self)) EmptyString in
  name self ++ params_str ++ ":" ++ value self.

(** [interpret_ast] *)
Definition interpret_ast (ast : Grammar.ast) : t :=
  let name := join EmptyString (Grammar.a_name ast) in
  let value := join EmptyString (Grammar.a_value ast) in
  let params :=
    fold_left
      (fun params param_ast =>
         let param_name := join EmptyString (Grammar.p_name param_ast) in
         let param_values :=
           map (join EmptyString) (Grammar.p_values param_ast) in
         Dict.set params param_name param_values)
      (Grammar.a_params ast) [] in
  new name params value.

(** [parse] *)
Definition parse (line : string) : result t :=
  if contains LF line || contains CR line then
    Err (ValueError "ContentLine can only contain escaped newlines")
  else
    match Grammar.GRAMMAR_parse line with
    | None => Err (ParseError EmptyString)
    | Some ast => Ok (interpret_ast ast)
    end.

(** The [__eq__] that [attr.s] generates: the three attributes, compared
    as Python compares a [str], a [dict] (whatever the order of the keys)
    and a [str]. *)
Definition dict_eqb (d1 d2 : Dict.t (list string)) : bool :=
  Nat.eqb (length d1) (length d2)
  && forallb
       (fun kv =>
          match Dict.get d2 (fst kv) with
          | Some v => list_eqb String.eqb (snd kv) v
          | None => false
          end) d1.

Definition eqb (a b : t) : bool :=
  String.eqb (name a) (name b) && dict_eqb (params a) (params b)
  && String.eqb (value a) (value b).

(** [__getitem__]: [self.params[item]] *)
Definition __getitem__ (self : t) (item : string) : result (list string) :=
  match Dict.get (params self) item with
  | Some values => Ok values
  | None => Err KeyError
  end.

(** [__setitem__]: [self.params[item] = list(values)]; the state of [self]
    after the call. *)
Definition __setitem__ (self : t) (item : string) (values : list string) : t :=
  mk (name self) (Dict.set (params self) item values) (value self).

(** [clone]: [attr.evolve(self)] builds a [ContentLine] from the three
    attributes of [self]. *)
Definition clone (self : t) : t :=
  new (name self) (params self) (value self).

End ContentLine.

(** ** Python objects *)

Local Unset Elimination Schemes.

Inductive pyobj : Type :=
| PyNone
| PyInt (z : Z)
| PyStr (s : string)
| PyList (l : list pyobj)
| PyLine (cl : ContentLine.t)
| PyContainer (name : string) (items : list pyobj).

Local Set Elimination Schemes.

(** [type(v).__name__] *)
Definition type_name (v : pyobj) : string :=
  match v with
  | PyNone => "NoneType"
  | PyInt _ => "int"
  | PyStr _ => "str"
  | PyList _ => "list"
  | PyLine _ => "ContentLine"
  | PyContainer _ _ => "Container"
  end.

(** [isinstance(v, str)] *)
Definition is_str (v : pyobj) : bool :=
  match v with PyStr _ => true | _ => false end.

(** [isinstance(v, collections.abc.Iterable)]: the class defines [__iter__].
    A [ContentLine] defines [__getitem__] only, and is no [Iterable]. *)
Definition is_Iterable (v : pyobj) : bool :=
  match v with
  | PyStr _ | PyList _ | PyContainer _ _ => true
  | PyNone | PyInt _ | PyLine _ => false
  end.

(** [isinstance(v, (ContentLine, Container))] *)
Definition is_item (v : pyobj) : bool :=
  match v with
  | PyLine _ | PyContainer _ _ => true
  | _ => false
  end.

(** The values [iter(v)] runs through, for [for x in v], [*v] and
    [list.extend(v)].  A value with neither [__iter__] nor [__getitem__]
    raises [TypeError]; iterating a [ContentLine] asks for [self.params[0]],
    a [KeyError] since the keys are strings. *)
Definition iterate (v : pyobj) : result (list pyobj) :=
  match v with
  | PyStr s =>
      Ok (map (fun c => PyStr (String c EmptyString)) (list_ascii_of_string s))
  | PyList l => Ok l
  | PyContainer _ items => Ok items
  | PyLine _ => Err KeyError
  | PyNone | PyInt _ =>
      Err (TypeError ("'" ++ type_name v ++ "' object is not iterable"))
  end.

(** [a == b].  A list compares element-wise, and a [Container], which
    inherits [list.__eq__], as the list of its items; a [ContentLine] equals
    only a [ContentLine]. *)
Fixpoint py_eqb (a b : pyobj) {struct a} : bool :=
  match a, b with
  | PyNone, PyNone => true
  | PyInt x, PyInt y => Z.eqb x y
  | PyStr x, PyStr y => String.eqb x y
  | PyLine x, PyLine y => ContentLine.eqb x y
  | PyList l1, PyList l2
  | PyList l1, PyContainer _ l2
  | PyContainer _ l1, PyList l2
  | PyContainer _ l1, PyContainer _ l2 => list_eqb py_eqb l1 l2
  | _, _ => false
  end.

(** ** Container *)

Module Container.

(** A [Container] object: the list it is, and its [name] attribute. *)
Record t : Type := mk {
  name : string;
  items : list pyobj
}.

Definition to_obj (c : t) : pyobj := PyContainer (name c) (items c).

(** [__eq__], inherited from [list]. *)
Definition eqb (a b : t) : bool := py_eqb (to_obj a) (to_obj b).

(** Modelled from the spec: [ics.utils.check_is_instance], which is not
    among the sources: it fails unless the value is an instance of the
    classes asked for.  The failure is a [TypeError] that carries the label
    [name]. *)
Definition check_is_instance (name : string) (value : pyobj) : result unit :=
  if is_item value then Ok tt else Err (TypeError name).

(** [for nr, item in enumerate(items)]: the items are checked in turn under
    the label ["item %s" % nr]. *)
Fixpoint check_each (nr : nat) (items : list pyobj) : result unit :=
  match items with
  | [] => Ok tt
  | item :: rest =>
      _ <- check_is_instance ("item " ++ str_of_nat nr) item ;;
      check_each (S nr) rest
  end.

(** [check_items(self, *items)] *)
Definition check_items (items : list pyobj) : result unit :=
  match items with
  | [item] => check_is_instance "item" item
  | _ => check_each 0 items
  end.

(** [__init__]: [Container(name, *items)] *)
Definition init (name : string) (items : list pyobj) : result t :=
  _ <- check_items items ;;
  Ok (mk name items).

(** *** Methods that change the container

    A method is run on the state of [self] and returns, with its outcome,
    the state it leaves. *)
Definition method (A : Type) : Type := t -> result A * t.

Definition lift {A : Type} (r : result A) : method A := fun self => (r, self).

Definition mbind {A B : Type} (m : method A) (k : A -> method B) : method B :=
  fun self =>
    match m self with
    | (Ok a, self') => k a self'
    | (Err e, self') => (Err e, self')
    end.

Notation "m1 >> m2" := (mbind m1 (fun _ => m2))
  (at level 62, right associativity).

(** The methods of [list] reached through [super]. *)
Inductive index : Type :=
| Int (i : Z)
| Slice (start stop : option Z).  (* [start:stop], a bound may be absent *)

Definition clamp (len : Z) (bound : option Z) (default : Z) : nat :=
  match bound with
  | None => Z.to_nat default
  | Some i => Z.to_nat (if (i <? 0)%Z then Z.max (i + len) 0 else Z.min i len)
  end.

Definition list_setitem (index : index) (value : pyobj) : method unit :=
  fun self =>
    let l := items self in
    let len := Z.of_nat (length l) in
    match index with
    | Int i =>
        let j := if (i <? 0)%Z then (i + len)%Z else i in
        if ((0 <=? j) && (j <? len))%Z then
          let j := Z.to_nat j in
          (Ok tt, mk (name self) (firstn j l ++ value :: skipn (S j) l))
        else (Err (IndexError "list assignment index out of range"), self)
    | Slice start stop =>
        match iterate value with
        | Err (TypeError _) =>
            (Err (TypeError "can only assign an iterable"), self)
        | Err e => (Err e, self)
        | Ok values =>
            let lo := clamp len start 0 in
            let hi := Nat.max lo (clamp len stop len) in
            (Ok tt, mk (name self) (firstn lo l ++ values ++ skipn hi l))
        end
    end.

Definition list_insert (index : Z) (value : pyobj) : method unit :=
  fun self =>
    let l := items self in
    let at_ := clamp (Z.of_nat (length l)) (Some index) 0 in
    (Ok tt, mk (name self) (firstn at_ l ++ value :: skipn at_ l)).

Definition list_append (value : pyobj) : method unit :=
  fun self => (Ok tt, mk (name self) (items self ++ [value])).

Definition list_extend (values : pyobj) : method unit :=
  fun self =>
    match iterate values with
    | Ok vs => (Ok tt, mk (name self) (items self ++ vs))
    | Err e => (Err e, self)
    end.

(** [__setitem__] *)
Definition __setitem__ (index : index) (value : pyobj) : method unit :=
  lift (check_items [value]) >> list_setitem index value.

(** [insert] *)
Definition insert (index : Z) (value : pyobj) : method unit :=
  lift (check_items [value]) >> list_insert index value.

(** [append] *)
Definition append (value : pyobj) : method unit :=
  lift (check_items [value]) >> list_append value.

(** [extend]: [*values] runs through [values] to build the arguments of
    [check_items]. *)
Definition extend (values : pyobj) : method unit :=
  lift (vs <- iterate values ;; check_items vs) >> list_extend values.

(** [__add__]: a new container; [self] is only read. *)
Definition __add__ (values : pyobj) : method t :=
  fun self =>
    match init (name self) [] with
    | Err e => (Err e, self)
    | Ok container =>
        match extend (to_obj self) container with
        | (Err e, _) => (Err e, self)
        | (Ok _, container) =>
            match extend values container with
            | (Err e, _) => (Err e, self)
            | (Ok _, container) => (Ok container, self)
            end
        end
    end.

(** [__iadd__] *)
Definition __iadd__ (values : pyobj) : method unit :=
  extend values.

(** [parse], a class method: the [for] loop over the shared iterator
    [tokenized_lines], with the list [items] built so far.  The result is
    the container and the iterator as the call leaves it.  [fuel] bounds
    the number of lines read; [None] is a run that used it up. *)
Fixpoint parse_loop (fuel : nat) (name : string) (items : list pyobj)
  (tokenized_lines : gen ContentLine.t)
  : option (result (t * gen ContentLine.t)) :=
  match fuel with
  | O => None
  | S fuel =>
      match tokenized_lines with
      | Stop => Some (c <- init name items ;; Ok (c, Stop))
      | Raise e => Some (Err e)
      | Yield line rest =>
          if String.eqb (ContentLine.name line) "BEGIN" then
            match parse_loop fuel (ContentLine.value line) [] rest with
            | Some (Ok (child, rest')) =>
                parse_loop fuel name (items ++ [to_obj child]) rest'
            | Some (Err e) => Some (Err e)
            | None => None
            end
          else if String.eqb (ContentLine.name line) "END" then
            if negb (String.eqb (ContentLine.value line) name) then
              Some (Err (ParseError ("Expected END:" ++ name ++ ", got END:"
                                       ++ ContentLine.value line)))
            else Some (c <- init name items ;; Ok (c, rest))
          else parse_loop fuel name (items ++ [PyLine line]) rest
      end
  end.

Definition parse (name : string) (tokenized_lines : gen ContentLine.t)
  : option (result (t * gen ContentLine.t)) :=
  parse_loop (S (size tokenized_lines)) name [] tokenized_lines.

(** [clone] *)
Definition clone (self : t) : result t :=
  init (name self) (items self).

(** All the values of a list of options, when none is missing. *)
Fixpoint all_some {A : Type} (l : list (option A)) : option (list A) :=
  match l with
  | [] => Some []
  | Some x :: l' => option_map (cons x) (all_some l')
  | None :: _ => None
  end.

Definition CRLF : string := String CR (String LF EmptyString).

(** [str(v)], with [__str__] for a container: the line [BEGIN:name], the
    [str] of each element and the line [END:name], joined by CR LF.  The
    [str] of a list is made of the [repr] of its elements, which is not
    modelled: [None] stands for it. *)
Fixpoint str_of (v : pyobj) : option string :=
  match v with
  | PyNone => Some "None"
  | PyInt z => Some (NilZero.string_of_int (Z.to_int z))
  | PyStr s => Some s
  | PyList _ => None
  | PyLine cl => Some (ContentLine.str cl)
  | PyContainer name items =>
      option_map
        (fun lines => join CRLF (("BEGIN:" ++ name) :: lines ++ ["END:" ++ name]))
        (all_some (map str_of items))
  end.

(** [__str__] *)
Definition str (self : t) : option string := str_of (to_obj self).

End Container.

(** ** The module-level functions *)

(** The loop of [unfold_lines], with [current_line] as it stands. *)
Fixpoint unfold_loop (physical_lines : list pyobj) (current_line : string)
  : gen string :=
  match physical_lines with
  | [] =>
      if negb (String.eqb current_line EmptyString) then Yield current_line Stop
      else Stop
  | PyStr line :: rest =>
      if Nat.eqb (String.length (strip isspace line)) 0 then
        unfold_loop rest current_line
      else if String.eqb current_line EmptyString then
        unfold_loop rest (strip is_cr line)
      else
        match line with
        | String c tail =>
            if Ascii.eqb c SPACE || Ascii.eqb c TAB then
              unfold_loop rest (current_line ++ strip is_cr tail)
            else Yield current_line (unfold_loop rest (strip is_cr line))
        | EmptyString => Raise (IndexError "string index out of range")
        end
  | line :: _ =>
      Raise (AttributeError
               ("'" ++ type_name line ++ "' object has no attribute 'strip'"))
  end.

(** [unfold_lines], a generator function. *)
Definition unfold_lines (physical_lines : pyobj) : gen string :=
  if negb (is_Iterable physical_lines) then
    Raise (ParseError "Parameter `physical_lines` must be an iterable")
  else
    match iterate physical_lines with
    | Ok lines => unfold_loop lines EmptyString
    | Err e => Raise e
    end.

(** [tokenize_line], a generator function. *)
Fixpoint tokenize_line (unfolded_lines : gen string) : gen ContentLine.t :=
  match unfolded_lines with
  | Stop => Stop
  | Raise e => Raise e
  | Yield line rest =>
      match ContentLine.parse line with
      | Ok token => Yield token (tokenize_line rest)
      | Err e => Raise e
      end
  end.

(** The loop of [parse], with the list [res] built so far. *)
Fixpoint parse_top (fuel : nat) (res : list pyobj)
  (tokenized_lines : gen ContentLine.t) : option (result (list pyobj)) :=
  match fuel with
  | O => None
  | S fuel =>
      match tokenized_lines with
      | Stop => Some (Ok res)
      | Raise e => Some (Err e)
      | Yield line rest =>
          if String.eqb (ContentLine.name line) "BEGIN" then
            match
              Container.parse_loop fuel (ContentLine.value line) [] rest
            with
            | Some (Ok (c, rest')) =>
                parse_top fuel (res ++ [Container.to_obj c]) rest'
            | Some (Err e) => Some (Err e)
            | None => None
            end
          else parse_top fuel (res ++ [PyLine line]) rest
      end
  end.

(** [parse] *)
Definition parse (tokenized_lines : gen ContentLine.t)
  : option (result (list pyobj)) :=
  parse_top (S (size tokenized_lines)) [] tokenized_lines.

(** [lines_to_container] *)
Definition lines_to_container (lines : pyobj) : option (result (list pyobj)) :=
  parse (tokenize_line (unfold_lines lines)).

(** [string_to_container] *)
Definition string_to_container (txt : pyobj) : option (result (list pyobj)) :=
  match txt with
  | PyStr s => lines_to_container (PyList (map PyStr (splitlines s)))
  | _ =>
      Some (Err (AttributeError
                   ("'" ++ type_name txt
                        ++ "' object has no attribute 'splitlines'")))
  end.

(** [calendar_string_to_containers] *)
Definition calendar_string_to_containers (string : pyobj)
  : option (result (list pyobj)) :=
  if negb (is_str string) then Some (Err (TypeError "Expecting a string"))
  else string_to_container string.

Open Scope list_scope.

(** ** Block structure of a token sequence *)

Definition BEGIN (name : string) : ContentLine.t :=
  ContentLine.new "BEGIN" [] name.

Definition END (name : string) : ContentLine.t :=
  ContentLine.new "END" [] name.

Definition is_BEGIN (line : ContentLine.t) : bool :=
  String.eqb (ContentLine.name line) "BEGIN".

Definition is_END (line : ContentLine.t) : bool :=
  String.eqb (ContentLine.name line) "END".

(** [balanced ts items]: the tokens [ts] are a run of plain lines and of
    complete blocks, each block opened by a BEGIN and closed by the END of
    the same name, and [items] are the lines and the containers they stand
    for. *)
Inductive balanced : list ContentLine.t -> list pyobj -> Prop :=
| balanced_nil : balanced [] []
| balanced_line line ts items :
    is_BEGIN line = false -> is_END line = false ->
    balanced ts items ->
    balanced (line :: ts) (PyLine line :: items)
| balanced_block b e body inner ts items :
    is_BEGIN b = true -> is_END e = true ->
    ContentLine.value e = ContentLine.value b ->
    balanced body inner ->
    balanced ts items ->
    balanced (b :: body ++ e :: ts)
             (PyContainer (ContentLine.value b) inner :: items).

(** The names of the blocks open after the tokens [ts], innermost first,
    starting from the open blocks [stack]; [None] when an END does not
    name the innermost open block.  With no block open, the top-level
    [parse] takes an END for a plain line. *)
Fixpoint open_blocks (stack : list string) (ts : list ContentLine.t)
  : option (list string) :=
  match ts with
  | [] => Some stack
  | line :: ts' =>
      if is_BEGIN line then open_blocks (ContentLine.value line :: stack) ts'
      else if is_END line then
        match stack with
        | [] => open_blocks [] ts'
        | name :: stack' =>
            if String.eqb (ContentLine.value line) name
            then open_blocks stack' ts'
            else None
        end
      else open_blocks stack ts'
  end.

(** *** The builder with an explicit stack

    The recursion of [Container.parse] unrolled: one frame per open block,
    innermost first, each with the name of the block and the items it has
    collected; [res] is the list of the top-level [parse]. *)
Module Stack.

Definition frame : Type := (string * list pyobj)%type.

(** Hand a finished child to the innermost open block, or to the top
    level. *)
Definition give (frames : list frame) (res : list pyobj) (child : pyobj)
  : list frame * list pyobj :=
  match frames with
  | [] => ([], (res ++ [child])%list)
  | (name, items) :: frames' =>
      ((name, (items ++ [child])%list) :: frames', res)
  end.

(** Exhaustion: every loop ends, innermost first, and each block still
    open is built from what it has collected. *)
Fixpoint unwind_with (frames : list frame) (res : list pyobj) (child : pyobj)
  : result (list pyobj) :=
  match frames with
  | [] => Ok (res ++ [child])
  | (name, items) :: frames' =>
      c <- Container.init name (items ++ [child]) ;;
      unwind_with frames' res (Container.to_obj c)
  end.

Definition unwind (frames : list frame) (res : list pyobj)
  : result (list pyobj) :=
  match frames with
  | [] => Ok res
  | (name, items) :: frames' =>
      c <- Container.init name items ;;
      unwind_with frames' res (Container.to_obj c)
  end.

Fixpoint run (frames : list frame) (res : list pyobj)
  (tokenized_lines : gen ContentLine.t) : result (list pyobj) :=
  match tokenized_lines with
  | Stop => unwind frames res
  | Raise e => Err e
  | Yield line rest =>
      if is_BEGIN line then
        run ((ContentLine.value line, []) :: frames) res rest
      else
        match frames with
        | [] => run [] (res ++ [PyLine line]) rest
        | (name, items) :: frames' =>
            if is_END line then
              if negb (String.eqb (ContentLine.value line) name) then
                Err (ParseError ("Expected END:" ++ name ++ ", got END:"
                                   ++ ContentLine.value line)%string)
              else
                c <- Container.init name items ;;
                let (frames'', res') := give frames' res (Container.to_obj c) in
                run frames'' res' rest
            else run ((name, (items ++ [PyLine line])%list) :: frames') res rest
        end
  end.

End Stack.

(** ** The invariant of a container *)

(** Every element is a [ContentLine] or a [Container]. *)
Definition only_items (l : list pyobj) : Prop :=
  Forall (fun x => is_item x = true) l.

Definition invariant (c : Container.t) : Prop :=
  only_items (Container.items c).

(** The invariant, for a value that may be a container. *)
Definition sound (v : pyobj) : Prop :=
  match v with
  | PyContainer _ items => only_items items
  | _ => True
  end.

(** A method keeps the invariant, and leaves [self] as it was when it
    raises. *)
Definition preserves {A : Type} (m : Container.method A) : Prop :=
  forall self : Container.t,
    invariant self ->
    match m self with
    | (Ok _, self') => invariant self'
    | (Err _, self') => self' = self
    end.

(** A method raises [TypeError] and leaves [self] as it was. *)
Definition rejects {A : Type} (m : Container.method A) : Prop :=
  forall self : Container.t,
    exists msg, m self = (Err (TypeError msg), self).

(** ** Lines of the unfolder *)

(** [l.strip()] is not empty. *)
Definition nonblank (l : string) : bool :=
  negb (Nat.eqb (String.length (strip isspace l)) 0).

(** The line does not start with a space or a tab. *)
Definition starts_unfolded (l : string) : bool :=
  match l with
  | String c _ => negb (Ascii.eqb c SPACE || Ascii.eqb c TAB)
  | EmptyString => true
  end.

(** ** The timeline *)

Module Timeline.

(** A time-bounded record: the instants are seconds on one clock, and
    [ident] tells two records with the same instants apart. *)
Record event : Type := mk {
  ident : nat;
  begin_ : option Z;
  end_ : option Z
}.

Definition has_begin (e : event) : bool :=
  match begin_ e with Some _ => true | None => false end.

(** The start instant of a record that has one. *)
Definition start (e : event) : Z :=
  match begin_ e with Some b => b | None => 0%Z end.

(** The end instant, or the start for a record with no end. *)
Definition end_or_start (e : event) : Z :=
  match end_ e with Some t => t | None => start e end.

(** Stable insertion: [e] goes before the first record that starts
    later. *)
Fixpoint insert_by_start (e : event) (l : list event) : list event :=
  match l with
  | [] => [e]
  | x :: l' =>
      if (start e <=? start x)%Z then e :: l else x :: insert_by_start e l'
  end.

Fixpoint sort_by_start (l : list event) : list event :=
  match l with
  | [] => []
  | e :: l' => insert_by_start e (sort_by_start l')
  end.

(** Modelled from the spec: [ics.timeline.Timeline], which is not among
    the sources.  Iteration runs through the records that have a start
    instant, ordered by start, records with equal starts in the order of
    the collection. *)
Definition iter (events : list event) : list event :=
  sort_by_start (filter has_begin events).

(** Modelled from the spec: [Timeline.included]: in iteration order, every
    record whose start is at or after [start_] and whose end, or start when
    it has no end, is at or before [stop]. *)
Definition included (events : list event) (start_ stop : Z) : list event :=
  filter (fun e => (start_ <=? start e)%Z && (end_or_start e <=? stop)%Z)
         (iter events).

(** Modelled from the spec: [Timeline.overlapping]: in iteration order,
    every record with [start <= stop] and [end-or-start >= start_]. *)
Definition overlapping (events : list event) (start_ stop : Z) : list event :=
  filter (fun e => (start e <=? stop)%Z && (start_ <=? end_or_start e)%Z)
         (iter events).

Definition one_day : Z := 86400.

Definition day_start (instant : Z) : Z := (instant - instant mod one_day)%Z.

(** Modelled from the spec: [Timeline.on]: the records overlapping the day
    of [instant]; in strict mode, as [test_on_strict] and the example of
    section 8 have it, the records included in that day. *)
Definition on (events : list event) (instant : Z) (strict : bool)
  : list event :=
  if strict
  then included events (day_start instant) (day_start instant + one_day)%Z
  else overlapping events (day_start instant) (day_start instant + one_day)%Z.

(** Days from 1970-01-01 to a date of the proleptic Gregorian calendar. *)
Definition days_from_civil (y m d : Z) : Z :=
  let y' := if (m <=? 2)%Z then (y - 1)%Z else y in
  let era := (y' / 400)%Z in
  let yoe := (y' - era * 400)%Z in
  let mp := if (m <=? 2)%Z then (m + 9)%Z else (m - 3)%Z in
  let doy := ((153 * mp + 2) / 5 + d - 1)%Z in
  let doe := (yoe * 365 + yoe / 4 - yoe / 100 + doy)%Z in
  (era * 146097 + doe - 719468)%Z.

(** [datetime(y, m, d)], midnight. *)
Definition datetime (y m d : Z) : Z := (days_from_civil y m d * one_day)%Z.

Definition starts_in_order (l : list event) : Prop :=
  StronglySorted (fun a b => (start a <= start b)%Z) l.

(** The records of [test_included], [test_on] and [test_on_strict]. *)
Definition e0 : event := mk 0 (Some (datetime 2015 10 10)) None.
Definition e1 : event := mk 1 (Some (datetime 2010 10 10)) None.
Definition e2 : event := mk 2 (Some (datetime 2020 10 10)) None.
Definition e3 : event := mk 3 (Some (datetime 2015 1 10)) None.
Definition e4 : event :=
  mk 4 (Some (datetime 2014 1 10)) (Some (datetime 2018 1 10)).

Definition undefined_event : event := mk 5 None None.

(** The records of [test_overlapping]. *)
Definition o0 : event :=
  mk 0 (Some (datetime 2010 10 10)) (Some (datetime 2012 10 10)).
Definition o1 : event :=
  mk 1 (Some (datetime 2013 10 10)) (Some (datetime 2014 10 10)).
Definition o2 : event :=
  mk 2 (Some (datetime 2016 10 10)) (Some (datetime 2017 10 10)).

(** [datetime(2015, 10, 10, 12)] *)
Definition noon : Z := (datetime 2015 10 10 + 12 * 3600)%Z.

(** The records of the collection that lie within the window. *)
Definition within (start_ stop : Z) (e : event) : bool :=
  has_begin e && ((start_ <=? start e)%Z && (end_or_start e <=? stop)%Z).

End Timeline.

(** ** Statements and examples *)

(** What a call of [Container.parse] amounts to on the stack: it runs the
    frame of its block up to the END that closes it, or to exhaustion, and
    hands the container to the frame below. *)
Definition continues (frames : list Stack.frame) (res : list pyobj)
  (r : result (Container.t * gen ContentLine.t)) : result (list pyobj) :=
  match r with
  | Err e => Err e
  | Ok (c, rest) =>
      let (frames', res') := Stack.give frames res (Container.to_obj c) in
      Stack.run frames' res' rest
  end.

Definition SUMMARY_x : ContentLine.t := ContentLine.new "SUMMARY" [] "x".

(** The claim as the specification states it, for the token sequence
    [ts]: a block left open makes the builder raise. *)
Definition unterminated_raises (ts : list ContentLine.t) : Prop :=
  forall stack,
    open_blocks [] ts = Some stack -> stack <> [] ->
    exists e, parse (of_list ts) = Some (Err e).

Definition frames_ok (frames : list Stack.frame) : Prop :=
  Forall (fun f => only_items (snd f)) frames.

Definition same_children (l1 l2 : list pyobj) : Prop :=
  Forall2 (fun x y => py_eqb x y = true) l1 l2.

Local Unset Elimination Schemes.

(** A line, or a container of lines and containers, at every depth. *)
Inductive tree : pyobj -> Prop :=
| tree_line cl : tree (PyLine cl)
| tree_container name items : Forall tree items -> tree (PyContainer name items).

(** Two trees with the same lines in the same places, whatever the names
    of their containers. *)
Inductive similar : pyobj -> pyobj -> Prop :=
| similar_line a b :
    ContentLine.eqb a b = true -> similar (PyLine a) (PyLine b)
| similar_container name1 name2 items1 items2 :
    Forall2 similar items1 items2 ->
    similar (PyContainer name1 items1) (PyContainer name2 items2).

Local Set Elimination Schemes.

(** The claim as the specification states it, for two containers. *)
Definition equal_iff_same_name_and_children (a b : Container.t) : Prop :=
  Container.eqb a b = true
  <-> Container.name a = Container.name b
      /\ same_children (Container.items a) (Container.items b).

(** The claim as the specification states it, for the lines [lines]: each
    line that is not blank comes out with its trailing carriage returns
    stripped. *)
Definition unfolds_to_rstripped (lines : list string) : Prop :=
  forallb starts_unfolded lines = true ->
  unfold_lines (PyList (map PyStr lines))
  = of_list (map (rstrip is_cr) (filter nonblank lines)).

(** Four physical lines: one begins and one ends with a carriage return,
    two are blank. *)
Definition lines_with_CR : list string :=
  [String CR "A:1"; EmptyString; ("B:2" ++ String CR EmptyString)%string;
   String CR EmptyString].

(** The line [ATTENDEE;CN="Doe, John":mailto:a@a.com]. *)
Definition attendee_line : string :=
  "ATTENDEE;CN=" ++ String DQUOTE "Doe, John"
    ++ String DQUOTE ":mailto:a@a.com".

(** The token it stands for: one parameter, with the one value [Doe, John]. *)
Definition attendee : ContentLine.t :=
  ContentLine.mk "ATTENDEE" [("CN", ["Doe, John"])] "mailto:a@a.com".

(** What tokenizing [str(attendee)] gives. *)
Definition attendee_again : ContentLine.t :=
  ContentLine.mk "ATTENDEE" [("CN", ["Doe"; " John"])] "mailto:a@a.com".

(** The characters of a [str]. *)
Definition chars (s : string) : list ascii := list_ascii_of_string s.

Definition no_newline (c : ascii) : bool :=
  negb (Ascii.eqb c LF || Ascii.eqb c CR).

(** One or more name characters. *)
Definition is_name (s : string) : bool :=
  negb (Grammar.is_nil (chars s)) && forallb Grammar.is_name_char (chars s).

(** A parameter value that the grammar reads bare. *)
Definition is_bare_value (v : string) : bool :=
  forallb (fun c => Grammar.is_safe_char c && no_newline c) (chars v).

Definition is_bare_param (kv : string * list string) : bool :=
  is_name (fst kv) && negb (Grammar.is_nil (snd kv))
  && forallb is_bare_value (snd kv).

(** A token as the tokenizer builds it from a line whose parameter values
    are all bare. *)
Definition bare_token (T : ContentLine.t) : Prop :=
  is_name (ContentLine.name T) = true
  /\ upper (ContentLine.name T) = ContentLine.name T
  /\ NoDup (Dict.keys (ContentLine.params T))
  /\ forallb is_bare_param (ContentLine.params T) = true
  /\ forallb no_newline (chars (ContentLine.value T)) = true.

Definition cs (s : string) : list string := map Grammar.ch (chars s).

Definition ast_of (kv : string * list string) : Grammar.param_ast :=
  Grammar.mk_param (cs (fst kv)) (map cs (snd kv)).

(** The characters [__str__] prints for the parameters, followed by
    [tail]. *)
Fixpoint text_of_params (ps : Dict.t (list string)) (tail : list ascii)
  : list ascii :=
  match ps with
  | [] => tail
  | kv :: rest =>
      ";"%char :: chars (fst kv)
        ++ "="%char :: chars (join "," (snd kv)) ++ text_of_params rest tail
  end.

Definition dtstart : ContentLine.t :=
  ContentLine.mk "DTSTART" [("TZID", ["Europe/Brussels"]); ("X-A", ["1"; "2"])]
    "20131029T103000".

(** ** Statements about the rest of the code *)

(** The name and the values [interpret_ast] reads from one parameter. *)
Definition kv_of (pa : Grammar.param_ast) : string * list string :=
  (join EmptyString (Grammar.p_name pa),
   map (join EmptyString) (Grammar.p_values pa)).

(** The line starts with a space or a tab. *)
Definition is_continuation (l : string) : bool :=
  match l with
  | String c _ => Ascii.eqb c SPACE || Ascii.eqb c TAB
  | EmptyString => false
  end.

(** [l[1:]] *)
Definition but_first (l : string) : string :=
  match l with
  | String _ tail => tail
  | EmptyString => EmptyString
  end.

(** A physical line and the continuation lines that follow it, and the
    logical line they unfold to. *)
Definition group : Type := (string * list string)%type.

Definition lines_of_group (g : group) : list string := fst g :: snd g.

Definition unfolded (g : group) : string :=
  (strip is_cr (fst g)
     ++ join EmptyString (map (fun l => strip is_cr (but_first l)) (snd g)))%string.

Definition is_group (g : group) : bool :=
  nonblank (fst g)
  && forallb (fun l => nonblank l && is_continuation l) (snd g).

(** Every value the generator yields satisfies [p], and it ends by
    exhaustion. *)
Fixpoint yields_only {A : Type} (p : A -> bool) (g : gen A) : bool :=
  match g with
  | Stop => true
  | Yield a rest => p a && yields_only p rest
  | Raise _ => false
  end.

Definition starts_with_CR (l : string) : bool :=
  match l with
  | String c _ => is_cr c
  | EmptyString => false
  end.

Fixpoint ends_with_CR (l : string) : bool :=
  match l with
  | EmptyString => false
  | String c EmptyString => is_cr c
  | String _ tail => ends_with_CR tail
  end.

(** The line is not empty and has no carriage return at either end. *)
Definition is_clean (l : string) : bool :=
  negb (String.eqb l EmptyString)
  && negb (starts_with_CR l) && negb (ends_with_CR l).

(** The tokens a tree is built from: its line, or the tokens of its
    elements between a BEGIN and an END. *)
Fixpoint tokens_of (v : pyobj) : list ContentLine.t :=
  match v with
  | PyLine cl => [cl]
  | PyContainer name items =>
      BEGIN name :: flat_map tokens_of items ++ [END name]
  | _ => []
  end.

Definition no_linebreak (s : string) : bool :=
  forallb (fun c => negb (is_linebreak c)) (chars s).

Local Unset Elimination Schemes.

(** A tree whose lines are not named BEGIN or END. *)
Inductive plain_tree : pyobj -> Prop :=
| plain_line cl :
    is_BEGIN cl = false -> is_END cl = false -> plain_tree (PyLine cl)
| plain_container name items :
    Forall plain_tree items -> plain_tree (PyContainer name items).

(** A tree that [__str__] prints in a form the parser reads back: its
    lines need no quotes and are not named BEGIN or END, and no line break
    hides in a line or in the name of a block. *)
Inductive printable : pyobj -> Prop :=
| printable_line cl :
    bare_token cl -> is_BEGIN cl = false -> is_END cl = false ->
    no_linebreak (ContentLine.str cl) = true ->
    printable (PyLine cl)
| printable_container name items :
    no_linebreak name = true ->
    Forall printable items ->
    printable (PyContainer name items).

Local Set Elimination Schemes.

(** Hand a run of finished items to the innermost open block, or to the
    top level. *)
Definition give_all (frames : list Stack.frame) (res : list pyobj)
  (items : list pyobj) : list Stack.frame * list pyobj :=
  match frames with
  | [] => ([], res ++ items)
  | (name, acc) :: frames' => ((name, acc ++ items) :: frames', res)
  end.

(** A calendar with an event that holds an alarm, and a line. *)
Definition calendar_tree : list pyobj :=
  [PyContainer "VCALENDAR"
     [PyLine (ContentLine.new "VERSION" [] "2.0");
      PyContainer "VEVENT"
        [PyLine SUMMARY_x; PyContainer "VALARM" []; PyLine dtstart]];
   PyLine SUMMARY_x].

(** A logical line folded over three physical lines. *)
Definition description_group : group :=
  ("DESCRIPTION:one" ++ String CR EmptyString,
   [" two" ++ String CR EmptyString; String TAB "three"])%string.


(** The lines [__str__] prints for a tree. *)
Definition lines_of (v : pyobj) : list string :=
  map ContentLine.str (tokens_of v).

(** A token that [__str__] prints on one line which tokenizes back. *)
Definition readable (t : ContentLine.t) : Prop :=
  bare_token t /\ no_linebreak (ContentLine.str t) = true.

(** A physical line that is a logical line by itself. *)
Definition whole_line (l : string) : Prop :=
  nonblank l = true /\ starts_unfolded l = true /\ strip is_cr l = l.

(** An event with a parametrised line and a nested alarm. *)
Definition vevent : Container.t :=
  Container.mk "VEVENT"
    [PyLine dtstart; PyContainer "VALARM" [PyLine SUMMARY_x]].

(** The three separators a text may use between its lines. *)
Definition is_line_ending (sep : string) : Prop :=
  sep = Container.CRLF \/ sep = String LF EmptyString
  \/ sep = String CR EmptyString.

(** [dtstart] with its parameters in the other order. *)
Definition dtstart_swapped : ContentLine.t :=
  ContentLine.mk "DTSTART"
    [("X-A", ["1"; "2"]); ("TZID", ["Europe/Brussels"])]
    "20131029T103000".

(** * Properties *)

(** ** The recursive builder and the explicit stack *)

Lemma unwind_with_give (frames : list Stack.frame) (res : list pyobj)
  (child : pyobj) :
  Stack.unwind_with frames res child
  = let (frames', res') := Stack.give frames res child in
    Stack.unwind frames' res'.
Proof.
  destruct frames as [|[name items] frames]; reflexivity.
Qed.

Lemma parse_loop_run (fuel : nat) :
  forall (name : string) (items : list pyobj) (g : gen ContentLine.t),
    size g < fuel ->
    exists r,
      Container.parse_loop fuel name items g = Some r
      /\ (forall frames res,
             Stack.run ((name, items) :: frames) res g = continues frames res r)
      /\ (forall c rest, r = Ok (c, rest) -> size rest <= size g).
Proof.
  induction fuel as [|fuel IH]; intros name items g Hfuel; [lia|].
  destruct g as [|line rest|e]; cbn [Container.parse_loop].
  - (* exhausted *)
    destruct (Container.init name items) as [c|e] eqn:Hinit; cbn [bind].
    + eexists; split; [reflexivity|]. split.
      * intros frames res. cbn [Stack.run Stack.unwind continues].
        rewrite Hinit. cbn [bind]. apply unwind_with_give.
      * intros c' rest' H. injection H as <- <-. cbn. lia.
    + eexists; split; [reflexivity|]. split.
      * intros frames res. cbn [Stack.run Stack.unwind continues].
        rewrite Hinit. reflexivity.
      * discriminate.
  - cbn [size] in Hfuel.
    cbn [Stack.run]. unfold is_BEGIN, is_END.
    destruct (String.eqb (ContentLine.name line) "BEGIN") eqn:Hb.
    + (* a child block *)
      destruct (IH (ContentLine.value line) [] rest ltac:(lia))
        as ([[child rest']|e] & -> & Hrun & Hsize).
      * specialize (Hsize _ _ eq_refl).
        destruct (IH name (items ++ [Container.to_obj child]) rest' ltac:(lia))
          as (r & -> & Hrun' & Hsize').
        exists r. split; [reflexivity|]. split.
        -- intros frames res. rewrite Hrun. cbn [continues Stack.give].
           apply Hrun'.
        -- intros c rest'' ->. specialize (Hsize' _ _ eq_refl). cbn [size]. lia.
      * eexists; split; [reflexivity|]. split.
        -- intros frames res. rewrite Hrun. reflexivity.
        -- discriminate.
    + destruct (String.eqb (ContentLine.name line) "END") eqn:He.
      * destruct (negb (String.eqb (ContentLine.value line) name)).
        -- eexists; split; [reflexivity|]. split; [reflexivity|discriminate].
        -- destruct (Container.init name items) as [c|e]; cbn [bind].
           ++ eexists; split; [reflexivity|]. split; [reflexivity|].
              intros c' rest' H. injection H as <- <-. cbn [size]. lia.
           ++ eexists; split; [reflexivity|]. split; [reflexivity|discriminate].
      * destruct (IH name (items ++ [PyLine line]) rest ltac:(lia))
          as (r & -> & Hrun & Hsize).
        exists r. split; [reflexivity|]. split; [exact Hrun|].
        intros c rest' ->. specialize (Hsize _ _ eq_refl). cbn [size]. lia.
  - eexists; split; [reflexivity|]. split; [reflexivity|discriminate].
Qed.

Lemma parse_top_run (fuel : nat) :
  forall (res : list pyobj) (g : gen ContentLine.t),
    size g < fuel ->
    parse_top fuel res g = Some (Stack.run [] res g).
Proof.
  induction fuel as [|fuel IH]; intros res g Hfuel; [lia|].
  destruct g as [|line rest|e]; cbn [parse_top Stack.run Stack.unwind];
    try reflexivity.
  cbn [size] in Hfuel. unfold is_BEGIN.
  destruct (String.eqb (ContentLine.name line) "BEGIN").
  - destruct (parse_loop_run (fuel := fuel) (ContentLine.value line) [] rest
                ltac:(lia))
      as ([[c rest']|e] & -> & Hrun & Hsize).
    + specialize (Hsize _ _ eq_refl). rewrite Hrun. cbn [continues Stack.give].
      apply IH. lia.
    + rewrite Hrun. reflexivity.
  - apply IH. lia.
Qed.

(** The top-level [parse] always returns or raises, and is the run of the
    stack from no open block. *)
Lemma parse_run (g : gen ContentLine.t) :
  parse g = Some (Stack.run [] [] g).
Proof.
  unfold parse. apply parse_top_run. lia.
Qed.

(** [Container.parse] always returns or raises: its fuel is never used up. *)
Lemma Container_parse_total (name : string) (g : gen ContentLine.t) :
  exists r, Container.parse name g = Some r.
Proof.
  unfold Container.parse.
  destruct (parse_loop_run (fuel := S (size g)) name [] g ltac:(lia))
    as (r & H & _).
  eauto.
Qed.

(** More fuel changes nothing. *)
Lemma parse_loop_more (fuel fuel' : nat) (name : string) (items : list pyobj)
  (g : gen ContentLine.t) :
  size g < fuel -> size g < fuel' ->
  Container.parse_loop fuel name items g
  = Container.parse_loop fuel' name items g.
Proof.
  revert fuel' name items g.
  induction fuel as [|fuel IH]; intros fuel' name items g H H'; [lia|].
  destruct fuel' as [|fuel']; [lia|].
  destruct g as [|line rest|e]; cbn [Container.parse_loop]; try reflexivity.
  cbn [size] in H, H'.
  destruct (String.eqb (ContentLine.name line) "BEGIN").
  - rewrite (IH fuel' (ContentLine.value line) [] rest) by lia.
    destruct (parse_loop_run (fuel := fuel') (ContentLine.value line) [] rest
                ltac:(lia)) as ([[c rest']|e] & -> & _ & Hsize);
      [|reflexivity].
    specialize (Hsize _ _ eq_refl). apply IH; lia.
  - destruct (String.eqb (ContentLine.name line) "END"); [reflexivity|].
    apply IH; lia.
Qed.

(** ** What [check_items] lets through *)

Lemma check_each_ok (items : list pyobj) :
  only_items items -> forall nr, Container.check_each nr items = Ok tt.
Proof.
  induction 1 as [|x items Hx _ IH]; intros nr; cbn.
  - reflexivity.
  - unfold Container.check_is_instance. rewrite Hx. cbn. apply IH.
Qed.

Lemma check_items_ok (items : list pyobj) :
  only_items items -> Container.check_items items = Ok tt.
Proof.
  intros H. unfold Container.check_items.
  destruct items as [|x [|y items]]; try (apply check_each_ok; assumption).
  inversion H as [|? ? Hx _]; subst.
  unfold Container.check_is_instance. now rewrite Hx.
Qed.

Lemma check_each_rejects (items : list pyobj) :
  ~ only_items items ->
  forall nr, exists msg, Container.check_each nr items = Err (TypeError msg).
Proof.
  induction items as [|x items IH]; intros H nr.
  - exfalso. apply H. constructor.
  - cbn. unfold Container.check_is_instance.
    destruct (is_item x) eqn:Hx; cbn.
    + apply IH. intros Hitems. apply H. constructor; assumption.
    + eauto.
Qed.

Lemma check_items_rejects (items : list pyobj) :
  ~ only_items items ->
  exists msg, Container.check_items items = Err (TypeError msg).
Proof.
  intros H. unfold Container.check_items.
  destruct items as [|x [|y items]]; try (apply check_each_rejects; assumption).
  unfold Container.check_is_instance.
  destruct (is_item x) eqn:Hx; [|eauto].
  exfalso. apply H. repeat constructor. assumption.
Qed.

Lemma init_ok (name : string) (items : list pyobj) :
  only_items items ->
  Container.init name items = Ok (Container.mk name items).
Proof.
  intros H. unfold Container.init. now rewrite check_items_ok.
Qed.

Lemma only_items_app (l1 l2 : list pyobj) :
  only_items l1 -> only_items l2 -> only_items (l1 ++ l2).
Proof.
  intros H1 H2. apply Forall_app. split; assumption.
Qed.

Lemma balanced_only_items (ts : list ContentLine.t) (items : list pyobj) :
  balanced ts items -> only_items items.
Proof.
  induction 1; constructor; auto.
Qed.

(** ** Generators built from lists *)

Lemma prepend_app {A : Type} (l1 l2 : list A) (g : gen A) :
  prepend (l1 ++ l2) g = prepend l1 (prepend l2 g).
Proof.
  unfold prepend. apply fold_right_app.
Qed.

Lemma size_prepend {A : Type} (l : list A) (g : gen A) :
  size (prepend l g) = length l + size g.
Proof.
  induction l as [|x l IH]; cbn; [reflexivity|].
  unfold prepend in IH. now rewrite IH.
Qed.

Lemma is_END_not_BEGIN (line : ContentLine.t) :
  is_END line = true -> is_BEGIN line = false.
Proof.
  unfold is_END, is_BEGIN. intros H.
  apply String.eqb_eq in H. now rewrite H.
Qed.

(** ** One step of the loop of [Container.parse] *)

Lemma parse_loop_line (fuel : nat) (name : string) (acc : list pyobj)
  (line : ContentLine.t) (rest : gen ContentLine.t) :
  is_BEGIN line = false -> is_END line = false ->
  Container.parse_loop (S fuel) name acc (Yield line rest)
  = Container.parse_loop fuel name (acc ++ [PyLine line]) rest.
Proof.
  unfold is_BEGIN, is_END. intros Hb He.
  cbn [Container.parse_loop]. now rewrite Hb, He.
Qed.

Lemma parse_loop_BEGIN (fuel : nat) (name : string) (acc : list pyobj)
  (line : ContentLine.t) (rest : gen ContentLine.t) :
  is_BEGIN line = true ->
  Container.parse_loop (S fuel) name acc (Yield line rest)
  = match Container.parse_loop fuel (ContentLine.value line) [] rest with
    | Some (Ok (child, rest')) =>
        Container.parse_loop fuel name (acc ++ [Container.to_obj child]) rest'
    | Some (Err e) => Some (Err e)
    | None => None
    end.
Proof.
  unfold is_BEGIN. intros Hb. cbn [Container.parse_loop]. now rewrite Hb.
Qed.

Lemma parse_loop_END (fuel : nat) (name : string) (acc : list pyobj)
  (line : ContentLine.t) (rest : gen ContentLine.t) :
  is_END line = true ->
  Container.parse_loop (S fuel) name acc (Yield line rest)
  = if String.eqb (ContentLine.value line) name
    then Some (c <- Container.init name acc ;; Ok (c, rest))
    else Some (Err (ParseError ("Expected END:" ++ name ++ ", got END:"
                                  ++ ContentLine.value line)%string)).
Proof.
  intros He. pose proof (is_END_not_BEGIN _ He) as Hb.
  unfold is_BEGIN in Hb. unfold is_END in He.
  cbn [Container.parse_loop]. rewrite Hb, He.
  now destruct (String.eqb (ContentLine.value line) name).
Qed.

Lemma parse_loop_Stop (fuel : nat) (name : string) (acc : list pyobj) :
  Container.parse_loop (S fuel) name acc Stop
  = Some (c <- Container.init name acc ;; Ok (c, Stop)).
Proof. reflexivity. Qed.

(** ** Balanced tokens inside a block *)

(** A balanced run of tokens adds its items to the open block and leaves
    the loop where it was. *)
Lemma parse_loop_balanced (pre : list ContentLine.t) (items : list pyobj) :
  balanced pre items ->
  forall (fuel : nat) (name : string) (acc : list pyobj)
         (g : gen ContentLine.t),
    size (prepend pre g) < fuel ->
    Container.parse_loop fuel name acc (prepend pre g)
    = Container.parse_loop fuel name (acc ++ items) g.
Proof.
  induction 1 as [|line ts items Hb He _ IH
                  |b e body inner ts items Hb He Hv Hbody IHbody Hts IHts];
    intros fuel name acc g Hfuel.
  - now rewrite app_nil_r.
  - change (prepend (line :: ts) g) with (Yield line (prepend ts g)) in *.
    cbn [size] in Hfuel.
    destruct fuel as [|fuel]; [lia|].
    rewrite parse_loop_line by assumption.
    rewrite IH by lia. rewrite <- app_assoc. cbn [app].
    rewrite size_prepend in Hfuel.
    apply parse_loop_more; lia.
  - change (prepend (b :: body ++ e :: ts) g)
      with (Yield b (prepend (body ++ e :: ts) g)) in *.
    rewrite prepend_app in *.
    change (prepend (e :: ts) g) with (Yield e (prepend ts g)) in *.
    cbn [size] in Hfuel. rewrite size_prepend in Hfuel. cbn [size] in Hfuel.
    destruct fuel as [|fuel]; [lia|].
    rewrite parse_loop_BEGIN by assumption.
    rewrite IHbody by (rewrite size_prepend; cbn [size]; lia). cbn [app].
    destruct fuel as [|fuel]; [lia|].
    rewrite parse_loop_END by assumption.
    rewrite Hv, String.eqb_refl.
    rewrite (init_ok _ (balanced_only_items Hbody)). cbn [bind].
    rewrite (parse_loop_more (fuel := S fuel) (fuel' := S (S fuel)))
      by lia.
    rewrite IHts by lia.
    rewrite <- app_assoc. reflexivity.
Qed.

(** ** C3: an END inside a block *)

(** C3.  Inside a block named [name], after any balanced run of tokens, a
    token named END whose value is [name] ends the block: the call returns
    the container of the items read, and leaves the tokens after the END
    unread.  An END with another value makes [Container.parse] raise the
    [ParseError] that names the expected and the actual block. *)
Theorem Container_parse_END (name : string) (pre : list ContentLine.t)
  (items : list pyobj) (e : ContentLine.t) (rest : gen ContentLine.t) :
  balanced pre items ->
  is_END e = true ->
  Container.parse name (prepend pre (Yield e rest))
  = if String.eqb (ContentLine.value e) name
    then Some (Ok (Container.mk name items, rest))
    else Some (Err (ParseError ("Expected END:" ++ name ++ ", got END:"
                                  ++ ContentLine.value e)%string)).
Proof.
  intros Hpre He. unfold Container.parse.
  rewrite (parse_loop_balanced Hpre) by lia.
  rewrite size_prepend. cbn [size app].
  rewrite parse_loop_more with (fuel' := S (S (size rest)))
    by (cbn [size]; lia).
  rewrite parse_loop_END by assumption.
  destruct (String.eqb (ContentLine.value e) name); [|reflexivity].
  now rewrite (init_ok _ (balanced_only_items Hpre)).
Qed.

Lemma Container_parse_END_witness :
  Container.parse "VEVENT" (of_list [SUMMARY_x; END "VTODO"])
  = Some (Err (ParseError "Expected END:VEVENT, got END:VTODO"))
  /\ Container.parse "VEVENT" (of_list [SUMMARY_x; END "VEVENT"; SUMMARY_x])
     = Some (Ok (Container.mk "VEVENT" [PyLine SUMMARY_x],
                 of_list [SUMMARY_x])).
Proof.
  split.
  - apply (@Container_parse_END "VEVENT" [SUMMARY_x] [PyLine SUMMARY_x]
             (END "VTODO") Stop).
    + apply balanced_line; [reflexivity|reflexivity|apply balanced_nil].
    + reflexivity.
  - apply (@Container_parse_END "VEVENT" [SUMMARY_x] [PyLine SUMMARY_x]
             (END "VEVENT") (of_list [SUMMARY_x])).
    + apply balanced_line; [reflexivity|reflexivity|apply balanced_nil].
    + reflexivity.
Defined.

(** ** C1: a block still open when the input is exhausted *)

(** For [BEGIN:VEVENT] alone the builder returns the empty container. *)
Lemma unterminated_BEGIN_returns :
  parse (of_list [BEGIN "VEVENT"]) = Some (Ok [PyContainer "VEVENT" []])
  /\ ~ unterminated_raises [BEGIN "VEVENT"].
Proof.
  split; [reflexivity|].
  intros H. destruct (H ["VEVENT"] eq_refl ltac:(discriminate)) as [e He].
  discriminate He.
Qed.

Lemma give_ok (frames : list Stack.frame) (res : list pyobj) (child : pyobj) :
  frames_ok frames -> is_item child = true ->
  frames_ok (fst (Stack.give frames res child))
  /\ map fst (fst (Stack.give frames res child)) = map fst frames.
Proof.
  intros Hok Hc. destruct frames as [|[name items] frames]; cbn.
  - split; [constructor|reflexivity].
  - inversion Hok as [|? ? Hitems Hrest]; subst. split; [|reflexivity].
    constructor; [|assumption]. cbn in *.
    apply only_items_app; [assumption|]. now repeat constructor.
Qed.

Lemma run_END (name : string) (items : list pyobj)
  (frames : list Stack.frame) (res : list pyobj) (e : ContentLine.t)
  (rest : gen ContentLine.t) :
  is_END e = true -> ContentLine.value e = name -> only_items items ->
  Stack.run ((name, items) :: frames) res (Yield e rest)
  = Stack.run (fst (Stack.give frames res (PyContainer name items)))
              (snd (Stack.give frames res (PyContainer name items))) rest.
Proof.
  intros He Hv Hitems. cbn [Stack.run].
  rewrite (is_END_not_BEGIN _ He), He, Hv, String.eqb_refl. cbn [negb].
  rewrite (init_ok _ Hitems). cbn [bind].
  change (Container.to_obj (Container.mk name items))
    with (PyContainer name items).
  now destruct (Stack.give frames res (PyContainer name items)).
Qed.

(** Exhaustion with blocks open does what the missing ENDs would do. *)
Lemma unwind_closers (names : list string) :
  forall (frames : list Stack.frame) (res : list pyobj),
    map fst frames = names -> frames_ok frames ->
    exists tree,
      Stack.unwind frames res = Ok tree
      /\ Stack.run frames res (of_list (map END names)) = Ok tree.
Proof.
  induction names as [|name names IH]; intros frames res Hn Hok.
  - destruct frames; [|discriminate]. now exists res.
  - destruct frames as [|[name' items] frames]; [discriminate|].
    cbn in Hn. injection Hn as -> Hn.
    inversion Hok as [|? ? Hitems Hrest]; subst. cbn [snd] in Hitems.
    destruct (@give_ok frames res (PyContainer name items) Hrest eq_refl)
      as [Hok' Hn'].
    destruct (IH _ (snd (Stack.give frames res (PyContainer name items)))
                Hn' Hok') as (tree & Hu & Hr).
    exists tree. split.
    + cbn [Stack.unwind]. rewrite (init_ok _ Hitems). cbn [bind].
      rewrite unwind_with_give.
      change (Container.to_obj (Container.mk name items))
        with (PyContainer name items).
      now destruct (Stack.give frames res (PyContainer name items)).
    + change (of_list (map END (name :: map fst frames)))
        with (Yield (END name) (of_list (map END (map fst frames)))).
      now rewrite run_END.
Qed.

Lemma run_open_blocks (ts : list ContentLine.t) :
  forall (frames : list Stack.frame) (res : list pyobj) (stack : list string),
    frames_ok frames ->
    open_blocks (map fst frames) ts = Some stack ->
    exists tree,
      Stack.run frames res (of_list ts) = Ok tree
      /\ Stack.run frames res (of_list (ts ++ map END stack)) = Ok tree.
Proof.
  induction ts as [|line ts IH]; intros frames res stack Hok Hopen.
  - cbn in Hopen. injection Hopen as <-. cbn [app].
    destruct (@unwind_closers (map fst frames) frames res eq_refl Hok)
      as (tree & Hu & Hr).
    exists tree. split; [exact Hu|exact Hr].
  - cbn [open_blocks] in Hopen.
    change (of_list ((line :: ts) ++ map END stack))
      with (Yield line (of_list (ts ++ map END stack))).
    change (of_list (line :: ts)) with (Yield line (of_list ts)).
    destruct (is_BEGIN line) eqn:Hb.
    + cbn [Stack.run]. rewrite Hb.
      apply IH; [|exact Hopen].
      constructor; [constructor|assumption].
    + destruct frames as [|[name items] frames].
      * cbn [Stack.run]. rewrite Hb.
        cbn [map] in Hopen.
        destruct (is_END line); apply IH; assumption.
      * cbn [map fst] in Hopen.
        inversion Hok as [|? ? Hitems Hrest]; subst. cbn [snd] in Hitems.
        destruct (is_END line) eqn:He.
        -- destruct (String.eqb (ContentLine.value line) name) eqn:Hv;
             [|discriminate].
           apply String.eqb_eq in Hv.
           rewrite !run_END by assumption.
           destruct (@give_ok frames res (PyContainer name items) Hrest eq_refl)
             as [Hok' Hn'].
           apply IH; [assumption|]. now rewrite Hn'.
        -- cbn [Stack.run]. rewrite Hb, He.
           apply IH; [|exact Hopen].
           constructor; [|assumption]. cbn [snd].
           apply only_items_app; [assumption|]. now repeat constructor.
Qed.

(** C1, amended.  When the input is exhausted while blocks are open, the
    builder raises nothing.  [Container.parse] returns the container of the
    items its block has collected; and the top-level [parse] of a token
    sequence whose ENDs all match returns a tree, the one it returns when
    the sequence is followed by the END of each block left open. *)
Theorem exhaustion_closes_open_blocks :
  (forall name pre items,
      balanced pre items ->
      Container.parse name (of_list pre)
      = Some (Ok (Container.mk name items, Stop)))
  /\ (forall ts stack,
         open_blocks [] ts = Some stack ->
         exists tree,
           parse (of_list ts) = Some (Ok tree)
           /\ parse (of_list (ts ++ map END stack)) = Some (Ok tree)).
Proof.
  split.
  - intros name pre items Hpre. unfold Container.parse, of_list.
    rewrite (parse_loop_balanced Hpre) by lia.
    rewrite size_prepend. cbn [size app].
    rewrite parse_loop_more with (fuel' := 1) by (cbn [size]; lia).
    rewrite parse_loop_Stop.
    now rewrite (init_ok _ (balanced_only_items Hpre)).
  - intros ts stack Hopen. rewrite !parse_run.
    destruct (@run_open_blocks ts [] [] stack ltac:(constructor) Hopen)
      as (tree & H1 & H2).
    exists tree. now rewrite H1, H2.
Qed.

Lemma exhaustion_closes_open_blocks_witness :
  Container.parse "VEVENT" (of_list [SUMMARY_x])
  = Some (Ok (Container.mk "VEVENT" [PyLine SUMMARY_x], Stop))
  /\ exists tree,
       parse (of_list [BEGIN "VCALENDAR"; BEGIN "VEVENT"; SUMMARY_x])
       = Some (Ok tree)
       /\ parse (of_list ([BEGIN "VCALENDAR"; BEGIN "VEVENT"; SUMMARY_x]
                            ++ map END ["VEVENT"; "VCALENDAR"]))
          = Some (Ok tree).
Proof.
  split.
  - apply (proj1 exhaustion_closes_open_blocks "VEVENT" [SUMMARY_x]
             [PyLine SUMMARY_x]).
    apply balanced_line; [reflexivity|reflexivity|apply balanced_nil].
  - apply (proj2 exhaustion_closes_open_blocks
             [BEGIN "VCALENDAR"; BEGIN "VEVENT"; SUMMARY_x]
             ["VEVENT"; "VCALENDAR"]).
    reflexivity.
Defined.

(** ** C2: equality of containers *)

Lemma list_eqb_Forall2 {A B : Type} (eq : A -> B -> bool) (l1 : list A) :
  forall l2,
    list_eqb eq l1 l2 = true <-> Forall2 (fun x y => eq x y = true) l1 l2.
Proof.
  induction l1 as [|x l1 IH]; intros [|y l2]; cbn; split; intros H;
    try discriminate; try (inversion H; fail); try constructor; auto.
  - apply andb_true_iff in H. tauto.
  - apply andb_true_iff in H. apply IH. tauto.
  - inversion H; subst. apply andb_true_iff. split; [assumption|].
    now apply IH.
Qed.

(** Two containers with the same line and different names are equal. *)
Lemma names_take_no_part_in_equality :
  Container.eqb (Container.mk "VEVENT" [PyLine SUMMARY_x])
                (Container.mk "VTODO" [PyLine SUMMARY_x]) = true
  /\ ~ equal_iff_same_name_and_children
         (Container.mk "VEVENT" [PyLine SUMMARY_x])
         (Container.mk "VTODO" [PyLine SUMMARY_x]).
Proof.
  split; [reflexivity|].
  intros [H _]. destruct (H eq_refl) as [Hname _]. discriminate Hname.
Qed.

(** Induction on a Python object, its elements taken as smaller. *)
Lemma pyobj_induction (P : pyobj -> Prop) :
  P PyNone -> (forall z, P (PyInt z)) -> (forall s, P (PyStr s)) ->
  (forall l, Forall P l -> P (PyList l)) ->
  (forall cl, P (PyLine cl)) ->
  (forall name items, Forall P items -> P (PyContainer name items)) ->
  forall v, P v.
Proof.
  intros HNone HInt HStr HList HLine HContainer.
  fix go 1. intros [|z|s|l|cl|name items].
  - exact HNone.
  - apply HInt.
  - apply HStr.
  - apply HList. induction l as [|x l IH]; constructor; [apply go|exact IH].
  - apply HLine.
  - apply HContainer.
    induction items as [|x items IH]; constructor; [apply go|exact IH].
Qed.

Lemma same_children_similar (l1 : list pyobj) :
  Forall (fun a => tree a -> forall b, tree b ->
                   (py_eqb a b = true <-> similar a b)) l1 ->
  Forall tree l1 ->
  forall l2, Forall tree l2 ->
             (same_children l1 l2 <-> Forall2 similar l1 l2).
Proof.
  unfold same_children.
  induction 1 as [|x l1 Hx _ IH]; intros Ht1 l2 Ht2.
  - split; intros H; inversion H; constructor.
  - inversion Ht1 as [|? ? Htx Htl1]; subst.
    split; intros H; inversion H as [|? y ? l2' Hxy Hl]; subst;
      inversion Ht2 as [|? ? Hty Htl2]; subst; constructor.
    + now apply (Hx Htx y Hty).
    + now apply (IH Htl1 l2' Htl2).
    + now apply (Hx Htx y Hty).
    + now apply (IH Htl1 l2' Htl2).
Qed.

(** On trees, [==] is similarity. *)
Lemma py_eqb_similar (a : pyobj) :
  tree a -> forall b, tree b -> (py_eqb a b = true <-> similar a b).
Proof.
  induction a as [|z|s|l _|x|name items IH] using pyobj_induction;
    intros Ha b Hb; try (inversion Ha; fail).
  - destruct Hb as [y|name' items' _]; cbn [py_eqb].
    + split; [now constructor|]. intros H. now inversion H.
    + split; [discriminate|]. intros H. inversion H.
  - inversion Ha as [|? ? Hitems]; subst.
    destruct Hb as [y|name' items' Hitems']; cbn [py_eqb].
    + split; [discriminate|]. intros H. inversion H.
    + rewrite list_eqb_Forall2.
      fold (same_children items items').
      rewrite (same_children_similar IH Hitems Hitems').
      split; [now constructor|]. intros H. now inversion H.
Qed.

(** C2, amended.  Two containers are equal if and only if they have the
    same ordered children, compared element-wise; the names take no part in
    the comparison.  The comparison is recursive: for containers of lines
    and containers, a line equals a line with the same name, parameters and
    value, and a container equals a container with equal children,
    whatever their names. *)
Theorem Container_eqb_children (a b : Container.t) :
  (Container.eqb a b = true
   <-> same_children (Container.items a) (Container.items b))
  /\ (tree (Container.to_obj a) -> tree (Container.to_obj b) ->
      (Container.eqb a b = true
       <-> similar (Container.to_obj a) (Container.to_obj b))).
Proof.
  split.
  - unfold Container.eqb, Container.to_obj, same_children. cbn [py_eqb].
    apply list_eqb_Forall2.
  - intros Ha Hb. unfold Container.eqb. now apply py_eqb_similar.
Qed.

Lemma Container_eqb_children_witness :
  Container.eqb
    (Container.mk "VCALENDAR" [PyContainer "VEVENT" [PyLine SUMMARY_x]])
    (Container.mk "VTIMEZONE" [PyContainer "VTODO" [PyLine SUMMARY_x]]) = true
  <-> similar
        (PyContainer "VCALENDAR" [PyContainer "VEVENT" [PyLine SUMMARY_x]])
        (PyContainer "VTIMEZONE" [PyContainer "VTODO" [PyLine SUMMARY_x]]).
Proof.
  apply (proj2 (Container_eqb_children
                  (Container.mk "VCALENDAR"
                     [PyContainer "VEVENT" [PyLine SUMMARY_x]])
                  (Container.mk "VTIMEZONE"
                     [PyContainer "VTODO" [PyLine SUMMARY_x]])));
    repeat constructor.
Defined.

(** ** C4: the elements of a container *)

Lemma only_items_firstn (n : nat) (l : list pyobj) :
  only_items l -> only_items (firstn n l).
Proof.
  unfold only_items. intros H. revert n.
  induction H as [|x l Hx _ IH]; intros [|n]; cbn; constructor; auto.
Qed.

Lemma only_items_skipn (n : nat) (l : list pyobj) :
  only_items l -> only_items (skipn n l).
Proof.
  unfold only_items. intros H. revert n.
  induction H as [|x l Hx Hl IH]; intros [|n]; cbn; auto.
Qed.

Lemma check_one (value : pyobj) :
  Container.check_items [value]
  = if is_item value then Ok tt else Err (TypeError "item").
Proof. reflexivity. Qed.

Lemma only_items_dec (l : list pyobj) : only_items l \/ ~ only_items l.
Proof.
  induction l as [|x l [IH|IH]].
  - left. constructor.
  - destruct (is_item x) eqn:Hx.
    + left. now constructor.
    + right. intros H. inversion H; congruence.
  - right. intros H. inversion H; auto.
Qed.

Lemma setitem_preserves (index : Container.index) (value : pyobj) :
  sound value -> preserves (Container.__setitem__ index value).
Proof.
  intros Hsound self Hinv.
  unfold Container.__setitem__, Container.mbind, Container.lift.
  rewrite check_one. destruct (is_item value) eqn:Hv; [|reflexivity].
  unfold Container.list_setitem. destruct index as [i|start stop].
  - match goal with |- context [if ?b then _ else _] => destruct b end;
      [|reflexivity].
    unfold invariant. cbn [Container.items].
    apply only_items_app; [now apply only_items_firstn|].
    constructor; [assumption|now apply only_items_skipn].
  - destruct value; try discriminate; cbn [iterate]; [reflexivity|].
    unfold invariant. cbn [Container.items].
    apply only_items_app; [now apply only_items_firstn|].
    apply only_items_app; [exact Hsound|now apply only_items_skipn].
Qed.

Lemma insert_preserves (index : Z) (value : pyobj) :
  preserves (Container.insert index value).
Proof.
  intros self Hinv.
  unfold Container.insert, Container.mbind, Container.lift.
  rewrite check_one. destruct (is_item value) eqn:Hv; [|reflexivity].
  unfold Container.list_insert, invariant. cbn [Container.items].
  apply only_items_app; [now apply only_items_firstn|].
  constructor; [assumption|now apply only_items_skipn].
Qed.

Lemma append_preserves (value : pyobj) :
  preserves (Container.append value).
Proof.
  intros self Hinv.
  unfold Container.append, Container.mbind, Container.lift.
  rewrite check_one. destruct (is_item value) eqn:Hv; [|reflexivity].
  unfold Container.list_append, invariant. cbn [Container.items].
  apply only_items_app; [assumption|now repeat constructor].
Qed.

Lemma extend_preserves (values : pyobj) :
  preserves (Container.extend values).
Proof.
  intros self Hinv.
  unfold Container.extend, Container.mbind, Container.lift,
    Container.list_extend.
  destruct (iterate values) as [vs|e]; cbn [bind]; [|reflexivity].
  destruct (only_items_dec vs) as [Hvs|Hvs].
  - rewrite (check_items_ok Hvs). unfold invariant. cbn [Container.items].
    now apply only_items_app.
  - destruct (check_items_rejects Hvs) as [msg ->]. reflexivity.
Qed.

Lemma extend_rejects (values : pyobj) (vs : list pyobj) :
  iterate values = Ok vs -> ~ only_items vs ->
  rejects (Container.extend values).
Proof.
  intros Hit Hvs self.
  unfold Container.extend, Container.mbind, Container.lift.
  rewrite Hit. cbn [bind].
  destruct (check_items_rejects Hvs) as [msg ->]. now exists msg.
Qed.

Lemma extend_Ok (values : pyobj) (self : Container.t) :
  Container.extend values self
  = match iterate values with
    | Ok vs =>
        match Container.check_items vs with
        | Ok _ =>
            (Ok tt,
             Container.mk (Container.name self) (Container.items self ++ vs))
        | Err e => (Err e, self)
        end
    | Err e => (Err e, self)
    end.
Proof.
  unfold Container.extend, Container.mbind, Container.lift,
    Container.list_extend.
  destruct (iterate values) as [vs|e]; cbn [bind]; [|reflexivity].
  now destruct (Container.check_items vs).
Qed.

Lemma add_preserves (values : pyobj) (self : Container.t) :
  invariant self ->
  snd (Container.__add__ values self) = self
  /\ forall c, fst (Container.__add__ values self) = Ok c -> invariant c.
Proof.
  intros Hinv. unfold Container.__add__.
  rewrite (init_ok _ (Forall_nil _)).
  rewrite extend_Ok. cbn [Container.to_obj iterate].
  rewrite (check_items_ok Hinv). rewrite extend_Ok.
  destruct (iterate values) as [vs|e]; [|split; [reflexivity|discriminate]].
  destruct (only_items_dec vs) as [Hvs|Hvs].
  - rewrite (check_items_ok Hvs). split; [reflexivity|].
    intros c H. injection H as <-. unfold invariant. cbn [Container.items app].
    now apply only_items_app.
  - destruct (check_items_rejects Hvs) as [msg ->].
    split; [reflexivity|discriminate].
Qed.

Lemma add_rejects (values : pyobj) (vs : list pyobj) :
  iterate values = Ok vs -> ~ only_items vs ->
  forall self, invariant self -> exists msg,
    Container.__add__ values self = (Err (TypeError msg), self).
Proof.
  intros Hit Hvs self Hinv. unfold Container.__add__.
  rewrite (init_ok _ (Forall_nil _)).
  rewrite extend_Ok. cbn [Container.to_obj iterate].
  rewrite (check_items_ok Hinv). rewrite extend_Ok, Hit.
  destruct (check_items_rejects Hvs) as [msg ->]. now exists msg.
Qed.

Ltac reject_one :=
  intros ? Hno self;
  unfold Container.__setitem__, Container.insert, Container.append,
    Container.mbind, Container.lift;
  rewrite check_one, Hno; now exists "item"%string.

(** C4.  The constructor accepts exactly the lists whose elements are all
    a [ContentLine] or a [Container].  [__setitem__], [insert], [append],
    [extend], [__iadd__] and [__add__] keep every element of the container
    a [ContentLine] or a [Container]; each of them raises [TypeError] for
    any other value, and a method that raises leaves the container as it
    was.  ([__add__] builds a new container and never changes [self].) *)
Theorem Container_elements_are_items :
  (forall name items,
      (only_items items ->
       exists c, Container.init name items = Ok c
                 /\ Container.items c = items /\ invariant c)
      /\ (~ only_items items ->
          exists msg, Container.init name items = Err (TypeError msg)))
  /\ (forall index value,
         (sound value -> preserves (Container.__setitem__ index value))
         /\ (is_item value = false ->
             rejects (Container.__setitem__ index value)))
  /\ (forall index value,
         preserves (Container.insert index value)
         /\ (is_item value = false -> rejects (Container.insert index value)))
  /\ (forall value,
         preserves (Container.append value)
         /\ (is_item value = false -> rejects (Container.append value)))
  /\ (forall values,
         preserves (Container.extend values)
         /\ preserves (Container.__iadd__ values)
         /\ (forall vs, iterate values = Ok vs -> ~ only_items vs ->
                        rejects (Container.extend values)
                        /\ rejects (Container.__iadd__ values)))
  /\ (forall values self,
         invariant self ->
         snd (Container.__add__ values self) = self
         /\ (forall c, fst (Container.__add__ values self) = Ok c ->
                       invariant c)
         /\ (forall vs, iterate values = Ok vs -> ~ only_items vs ->
                        exists msg,
                          Container.__add__ values self
                          = (Err (TypeError msg), self))).
Proof.
  repeat split.
  - intros H. exists (Container.mk name items).
    split; [now apply init_ok|]. split; [reflexivity|exact H].
  - intros H. unfold Container.init.
    destruct (check_items_rejects H) as [msg ->]. now exists msg.
  - now apply setitem_preserves.
  - revert value. reject_one.
  - apply insert_preserves.
  - revert value. reject_one.
  - apply append_preserves.
  - revert value. reject_one.
  - apply extend_preserves.
  - apply extend_preserves.
  - now apply extend_rejects with (vs := vs).
  - now apply extend_rejects with (vs := vs).
  - now apply add_preserves.
  - now apply add_preserves.
  - intros vs Hit Hvs. now apply add_rejects with (vs := vs).
Qed.

Lemma Container_elements_are_items_witness :
  rejects (Container.append (PyStr "a plain string"))
  /\ preserves (Container.__setitem__ (Container.Slice (Some 0%Z) None)
                  (PyContainer "VALARM" [PyLine SUMMARY_x]))
  /\ rejects (Container.extend (PyList [PyLine SUMMARY_x; PyInt 7]))
  /\ snd (Container.__add__ (PyList [PyLine SUMMARY_x])
            (Container.mk "VEVENT" [PyLine SUMMARY_x]))
     = Container.mk "VEVENT" [PyLine SUMMARY_x]
  /\ exists c,
       Container.init "VEVENT" [PyLine SUMMARY_x] = Ok c
       /\ Container.items c = [PyLine SUMMARY_x] /\ invariant c.
Proof.
  destruct Container_elements_are_items
    as (Hinit & Hset & _ & Happend & Hextend & Hadd).
  split; [|split; [|split; [|split]]].
  - apply (proj2 (Happend (PyStr "a plain string"))). reflexivity.
  - apply (proj1 (Hset (Container.Slice (Some 0%Z) None)
                       (PyContainer "VALARM" [PyLine SUMMARY_x]))).
    cbn. repeat constructor.
  - apply (proj2 (proj2 (Hextend (PyList [PyLine SUMMARY_x; PyInt 7])))
             [PyLine SUMMARY_x; PyInt 7]); [reflexivity|].
    intros H. inversion H as [|? ? _ H']. inversion H' as [|? ? Hint _].
    discriminate Hint.
  - apply (Hadd (PyList [PyLine SUMMARY_x])
                (Container.mk "VEVENT" [PyLine SUMMARY_x])).
    repeat constructor.
  - apply (proj1 (Hinit "VEVENT"%string [PyLine SUMMARY_x])).
    repeat constructor.
Defined.

(** ** C7: a line source that is not iterable *)

(** C7.  For a value that is no [Iterable], the first thing the unfolder
    does is raise [ParseError]: no line is read, and the tokenizer and the
    builder that consume it raise the same error. *)
Theorem unfold_lines_not_iterable (physical_lines : pyobj) :
  is_Iterable physical_lines = false ->
  unfold_lines physical_lines
  = Raise (ParseError "Parameter `physical_lines` must be an iterable")
  /\ tokenize_line (unfold_lines physical_lines)
     = Raise (ParseError "Parameter `physical_lines` must be an iterable")
  /\ lines_to_container physical_lines
     = Some (Err (ParseError
                    "Parameter `physical_lines` must be an iterable")).
Proof.
  intros H. unfold lines_to_container, unfold_lines. rewrite H.
  repeat split.
Qed.

Lemma unfold_lines_not_iterable_witness :
  unfold_lines (PyInt 5)
  = Raise (ParseError "Parameter `physical_lines` must be an iterable")
  /\ tokenize_line (unfold_lines (PyInt 5))
     = Raise (ParseError "Parameter `physical_lines` must be an iterable")
  /\ lines_to_container (PyInt 5)
     = Some (Err (ParseError
                    "Parameter `physical_lines` must be an iterable")).
Proof.
  apply (@unfold_lines_not_iterable (PyInt 5)). reflexivity.
Defined.

(** ** C10: the entry point *)

Lemma lines_to_container_total (lines : pyobj) :
  exists r, lines_to_container lines = Some r.
Proof.
  unfold lines_to_container. rewrite parse_run. eauto.
Qed.

(** C10.  For a value that is not a [str], [calendar_string_to_containers]
    raises [TypeError], whatever unfolding, tokenizing or building would
    have done with it; for a [str] it is [string_to_container], which
    returns or raises. *)
Theorem calendar_string_to_containers_spec :
  (forall v,
      is_str v = false ->
      calendar_string_to_containers v
      = Some (Err (TypeError "Expecting a string")))
  /\ (forall s,
         calendar_string_to_containers (PyStr s) = string_to_container (PyStr s)
         /\ exists r, string_to_container (PyStr s) = Some r).
Proof.
  split.
  - intros v H. unfold calendar_string_to_containers. now rewrite H.
  - intros s. split; [reflexivity|]. apply lines_to_container_total.
Qed.

Lemma calendar_string_to_containers_spec_witness :
  calendar_string_to_containers (PyList [PyStr "BEGIN:VCALENDAR"])
  = Some (Err (TypeError "Expecting a string")).
Proof.
  apply (proj1 calendar_string_to_containers_spec
           (PyList [PyStr "BEGIN:VCALENDAR"])).
  reflexivity.
Defined.

(** ** C6: lines with no continuation *)

Lemma lstrip_empty_sub (p q : ascii -> bool) (s : string) :
  (forall c, p c = true -> q c = true) ->
  lstrip p s = EmptyString -> lstrip q s = EmptyString.
Proof.
  intros Hsub. induction s as [|c s IH]; cbn; [reflexivity|].
  destruct (p c) eqn:Hp; [|discriminate].
  rewrite (Hsub _ Hp). exact IH.
Qed.

Lemma rstrip_head (p : ascii -> bool) (c : ascii) (s : string) :
  p c = false -> rstrip p (String c s) <> EmptyString.
Proof.
  intros Hp. cbn. destruct (rstrip p s); [rewrite Hp|]; discriminate.
Qed.

Lemma lstrip_head (p : ascii -> bool) (s : string) :
  lstrip p s = EmptyString
  \/ exists c s', lstrip p s = String c s' /\ p c = false.
Proof.
  induction s as [|c s IH]; cbn; [now left|].
  destruct (p c) eqn:Hp; [exact IH|].
  right. now exists c, s.
Qed.

Lemma strip_empty (p : ascii -> bool) (s : string) :
  strip p s = EmptyString <-> lstrip p s = EmptyString.
Proof.
  unfold strip. split; intros H.
  - destruct (lstrip_head p s) as [He|(c & s' & He & Hp)]; [exact He|].
    rewrite He in H. now apply rstrip_head in H.
  - now rewrite H.
Qed.

Lemma is_cr_isspace (c : ascii) : is_cr c = true -> isspace c = true.
Proof.
  unfold is_cr. intros H. apply Ascii.eqb_eq in H. now subst c.
Qed.

(** A line that is not blank still has a character once its carriage
    returns are stripped. *)
Lemma nonblank_strip_cr (l : string) :
  nonblank l = true -> String.eqb (strip is_cr l) EmptyString = false.
Proof.
  unfold nonblank. intros H.
  destruct (strip is_cr l) eqn:Hs; [|reflexivity].
  apply strip_empty in Hs.
  apply (lstrip_empty_sub is_cr isspace _ is_cr_isspace) in Hs.
  apply strip_empty in Hs. now rewrite Hs in H.
Qed.

Lemma unfold_loop_unfolded (lines : list string) :
  forallb starts_unfolded lines = true ->
  forall current_line,
    unfold_loop (map PyStr lines) current_line
    = of_list
        ((if String.eqb current_line EmptyString then [] else [current_line])
           ++ map (strip is_cr) (filter nonblank lines)).
Proof.
  induction lines as [|l lines IH]; intros Hstart cur.
  - cbn. now destruct (String.eqb cur EmptyString).
  - cbn [forallb] in Hstart. apply andb_true_iff in Hstart.
    destruct Hstart as [Hl Hlines].
    cbn [map unfold_loop filter].
    destruct (Nat.eqb (String.length (strip isspace l)) 0) eqn:Hblank.
    + replace (nonblank l) with false by (unfold nonblank; now rewrite Hblank).
      apply (IH Hlines).
    + assert (Hnb : nonblank l = true)
        by (unfold nonblank; now rewrite Hblank).
      rewrite Hnb. pose proof (nonblank_strip_cr _ Hnb) as Hcr.
      destruct (String.eqb cur EmptyString) eqn:Hcur.
      * rewrite (IH Hlines), Hcr. reflexivity.
      * destruct l as [|c tail]; [discriminate Hnb|].
        cbn [starts_unfolded] in Hl. apply negb_true_iff in Hl.
        rewrite Hl, (IH Hlines), Hcr. reflexivity.
Qed.

(** A carriage return at the start of a line is stripped as well. *)
Lemma leading_CR_is_stripped :
  unfold_lines (PyList [PyStr (String CR "FOO:BAR")]) = of_list ["FOO:BAR"]
  /\ ~ unfolds_to_rstripped [String CR "FOO:BAR"].
Proof.
  split; [reflexivity|].
  intros H. specialize (H eq_refl). discriminate H.
Qed.

(** C6, amended.  When no line starts with a space or a tab, the unfolder
    yields the lines that are not blank, in order, each with the carriage
    returns at both its ends stripped; and the lines [FOO:BAR] and [ BAZ]
    unfold to the one line [FOO:BARBAZ]. *)
Theorem unfold_lines_without_continuation :
  (forall lines,
      forallb starts_unfolded lines = true ->
      unfold_lines (PyList (map PyStr lines))
      = of_list (map (strip is_cr) (filter nonblank lines)))
  /\ unfold_lines (PyList [PyStr "FOO:BAR"; PyStr " BAZ"])
     = of_list ["FOO:BARBAZ"].
Proof.
  split; [|reflexivity].
  intros lines H. unfold unfold_lines. cbn [is_Iterable negb iterate].
  now rewrite (unfold_loop_unfolded _ H).
Qed.

Lemma unfold_lines_without_continuation_witness :
  unfold_lines (PyList (map PyStr lines_with_CR))
  = of_list (map (strip is_cr) (filter nonblank lines_with_CR)).
Proof.
  apply (proj1 unfold_lines_without_continuation lines_with_CR).
  reflexivity.
Defined.

(** ** The timeline: order and content *)

Section TimelineFacts.

Import Timeline.

Lemma insert_by_start_perm (e : event) (l : list event) :
  Permutation (insert_by_start e l) (e :: l).
Proof.
  induction l as [|x l IH]; cbn; [reflexivity|].
  destruct (start e <=? start x)%Z; [reflexivity|].
  rewrite IH. apply perm_swap.
Qed.

Lemma sort_by_start_perm (l : list event) :
  Permutation (sort_by_start l) l.
Proof.
  induction l as [|e l IH]; cbn; [reflexivity|].
  rewrite insert_by_start_perm. now constructor.
Qed.

Lemma insert_by_start_sorted (e : event) (l : list event) :
  starts_in_order l -> starts_in_order (insert_by_start e l).
Proof.
  unfold starts_in_order.
  induction 1 as [|x l Hl IH Hx]; cbn.
  - repeat constructor.
  - destruct (start e <=? start x)%Z eqn:Hle.
    + apply Z.leb_le in Hle. constructor; [now constructor|].
      constructor; [exact Hle|].
      eapply Forall_impl; [|exact Hx]. cbn. intros y Hy. lia.
    + apply Z.leb_gt in Hle. constructor; [exact IH|].
      apply (Permutation_Forall (Permutation_sym (insert_by_start_perm e l))).
      constructor; [lia|exact Hx].
Qed.

Lemma sort_by_start_sorted (l : list event) :
  starts_in_order (sort_by_start l).
Proof.
  induction l as [|e l IH]; cbn.
  - constructor.
  - now apply insert_by_start_sorted.
Qed.

Lemma filter_sorted (f : event -> bool) (l : list event) :
  starts_in_order l -> starts_in_order (filter f l).
Proof.
  unfold starts_in_order.
  induction 1 as [|x l Hl IH Hx]; cbn; [constructor|].
  destruct (f x); [|exact IH].
  constructor; [exact IH|].
  apply Forall_forall. intros y Hy. apply filter_In in Hy.
  rewrite Forall_forall in Hx. now apply Hx.
Qed.

Lemma filter_perm (f : event -> bool) (l l' : list event) :
  Permutation l l' -> Permutation (filter f l) (filter f l').
Proof.
  induction 1 as [|x l l' _ IH|x y l|l l' l'' _ IH1 _ IH2]; cbn.
  - constructor.
  - destruct (f x); [now constructor|exact IH].
  - destruct (f x), (f y); try reflexivity. apply perm_swap.
  - now transitivity (filter f l').
Qed.

Lemma iter_sorted (events : list event) : starts_in_order (iter events).
Proof. apply sort_by_start_sorted. Qed.

Lemma iter_perm (events : list event) :
  Permutation (iter events) (filter has_begin events).
Proof. apply sort_by_start_perm. Qed.

Lemma iter_In (events : list event) (e : event) :
  In e (iter events) <-> In e events /\ has_begin e = true.
Proof.
  rewrite <- filter_In. split; apply Permutation_in;
    [|apply Permutation_sym]; apply iter_perm.
Qed.

Lemma filter_filter (f g : event -> bool) (l : list event) :
  filter f (filter g l) = filter (fun e => g e && f e) l.
Proof.
  induction l as [|x l IH]; cbn; [reflexivity|].
  destruct (g x); cbn; [destruct (f x)|]; now rewrite IH.
Qed.

(** C8.  [included] returns the records that have a start at or after the
    beginning of the window and an end, or a start when they have no end,
    at or before its end: exactly those, each as many times as the
    collection holds it, in ascending order of start.  A record that only
    overlaps the window is left out, as in [test_included]. *)
Theorem included_spec :
  (forall events start_ stop,
      starts_in_order (included events start_ stop)
      /\ Permutation (included events start_ stop)
                     (filter (within start_ stop) events)
      /\ (forall e,
             In e (included events start_ stop)
             <-> In e events
                 /\ exists b,
                      begin_ e = Some b /\ (start_ <= b)%Z
                      /\ (match end_ e with Some t => t | None => b end
                          <= stop)%Z))
  /\ included [e0; e1; e2; e3; e4] (datetime 2013 10 10) (datetime 2017 10 10)
     = [e3; e0].
Proof.
  split; [|reflexivity].
  intros events start_ stop. split; [|split].
  - apply filter_sorted, iter_sorted.
  - unfold included.
    rewrite (filter_perm _ (iter_perm events)). now rewrite filter_filter.
  - intros e. unfold included. rewrite filter_In, iter_In.
    unfold has_begin, end_or_start, start.
    rewrite andb_true_iff, !Z.leb_le.
    destruct (begin_ e) as [b|].
    + split.
      * intros [[Hin _] [H1 H2]]. split; [exact Hin|]. now exists b.
      * intros [Hin (b' & Hb & H1 & H2)]. injection Hb as <-. tauto.
    + split.
      * intros [[_ H] _]. discriminate H.
      * intros [_ (b & Hb & _)]. discriminate Hb.
Qed.

(** Whatever a query returns is a record of the iteration. *)
Lemma query_In_iter (events : list event) (e : event) :
  (forall a b, In e (included events a b) -> In e (iter events))
  /\ (forall a b, In e (overlapping events a b) -> In e (iter events))
  /\ (forall i strict, In e (on events i strict) -> In e (iter events)).
Proof.
  assert (Hin : forall a b, In e (included events a b) -> In e (iter events))
    by (intros a b H; apply filter_In in H; tauto).
  assert (Hover : forall a b, In e (overlapping events a b)
                              -> In e (iter events))
    by (intros a b H; apply filter_In in H; tauto).
  split; [exact Hin|]. split; [exact Hover|].
  intros i [|]; [apply Hin|apply Hover].
Qed.

(** C9.  A record with no start instant is not met when iterating over
    the timeline, and is in the result of no query, [included],
    [overlapping] or [on]. *)
Theorem no_start_no_result (events : list event) (e : event) :
  begin_ e = None ->
  ~ In e (iter events)
  /\ (forall a b, ~ In e (included events a b))
  /\ (forall a b, ~ In e (overlapping events a b))
  /\ (forall i strict, ~ In e (on events i strict)).
Proof.
  intros Hnone.
  assert (Hiter : ~ In e (iter events)).
  { intros H. apply iter_In in H. destruct H as [_ H].
    unfold has_begin in H. rewrite Hnone in H. discriminate H. }
  destruct (query_In_iter events e) as (Hi & Ho & Hon).
  split; [exact Hiter|]. split; [|split].
  - intros a b H. apply Hiter. now apply Hi in H.
  - intros a b H. apply Hiter. now apply Ho in H.
  - intros i strict H. apply Hiter. now apply Hon in H.
Qed.

Lemma no_start_no_result_witness :
  ~ In undefined_event (iter [undefined_event; e0; e4])
  /\ (forall a b, ~ In undefined_event (included [undefined_event; e0; e4] a b))
  /\ (forall a b,
         ~ In undefined_event (overlapping [undefined_event; e0; e4] a b))
  /\ (forall i strict,
         ~ In undefined_event (on [undefined_event; e0; e4] i strict)).
Proof.
  apply (@no_start_no_result [undefined_event; e0; e4] undefined_event).
  reflexivity.
Defined.

(** The model passes the tests of [tests/timeline.py]. *)
Example test_iter_does_not_show_undefined_events :
  iter [undefined_event;
        mk 1 (Some 1234%Z) None; mk 2 (Some 1235%Z) None]
  = [mk 1 (Some 1234%Z) None; mk 2 (Some 1235%Z) None].
Proof. reflexivity. Qed.

Example test_iter_is_ordered :
  iter [mk 0 (Some 1236%Z) None; mk 1 (Some 1235%Z) None;
        mk 2 (Some 1234%Z) None]
  = [mk 2 (Some 1234%Z) None; mk 1 (Some 1235%Z) None;
     mk 0 (Some 1236%Z) None].
Proof. reflexivity. Qed.

Example test_overlapping :
  overlapping [o0; o1; o2] (datetime 2011 10 10) (datetime 2015 10 10)
  = [o0; o1].
Proof. reflexivity. Qed.

Example test_on : on [e0; e1; e2; e3; e4] noon false = [e4; e0].
Proof. reflexivity. Qed.

Example test_on_strict : on [e0; e1; e2; e3; e4] noon true = [e0].
Proof. reflexivity. Qed.

End TimelineFacts.

(** ** C5: tokenizing what [__str__] prints *)

(** C5, at the token [attendee].  The tokenizer produces it from
    [attendee_line]; [__str__] prints its parameter value without the
    quotes, and tokenizing what it prints gives [attendee_again], with the
    two values [Doe] and [ John], which is not equal to [attendee]. *)
Theorem str_drops_the_quotes :
  ContentLine.parse attendee_line = Ok attendee
  /\ ContentLine.str attendee = "ATTENDEE;CN=Doe, John:mailto:a@a.com"%string
  /\ ContentLine.parse (ContentLine.str attendee) = Ok attendee_again
  /\ ContentLine.eqb attendee_again attendee = false
  /\ ContentLine.parse (ContentLine.str attendee) <> Ok attendee.
Proof.
  repeat split; try reflexivity.
  intros H. vm_compute in H. discriminate H.
Qed.

(** ** Tokenizing what [__str__] prints, for bare parameter values *)

Lemma chars_app (a b : string) : chars (a ++ b)%string = chars a ++ chars b.
Proof.
  induction a as [|c a IH]; cbn; [reflexivity|].
  unfold chars in IH. now rewrite IH.
Qed.

Lemma join_ch (c : ascii) (l : list string) :
  join EmptyString (Grammar.ch c :: l) = String c (join EmptyString l).
Proof. destruct l; reflexivity. Qed.

Lemma join_cs (s : string) : join EmptyString (cs s) = s.
Proof.
  unfold cs, chars. induction s as [|c s IH]; [reflexivity|].
  cbn [list_ascii_of_string map]. now rewrite join_ch, IH.
Qed.

Lemma map_join_cs (l : list string) : map (join EmptyString) (map cs l) = l.
Proof.
  induction l as [|x l IH]; cbn; [reflexivity|].
  now rewrite join_cs, IH.
Qed.

Section Run.

Import Grammar.

Variables (n : list string).

Lemma run_name_chars (l : list ascii) :
  forallb is_name_char l = true ->
  forall acc, fold_left step l (InName acc) = InName (acc ++ map ch l).
Proof.
  induction l as [|c l IH]; cbn [forallb fold_left map]; intros H acc.
  - now rewrite app_nil_r.
  - apply andb_true_iff in H. destruct H as [Hc Hl].
    cbn [step]. rewrite Hc, (IH Hl), <- app_assoc. reflexivity.
Qed.

Lemma run_pname_chars (ps : list param_ast) (l : list ascii) :
  forallb is_name_char l = true ->
  forall acc,
    fold_left step l (InParamName n ps acc)
    = InParamName n ps (acc ++ map ch l).
Proof.
  induction l as [|c l IH]; cbn [forallb fold_left map]; intros H acc.
  - now rewrite app_nil_r.
  - apply andb_true_iff in H. destruct H as [Hc Hl].
    cbn [step]. rewrite Hc, (IH Hl), <- app_assoc. reflexivity.
Qed.

Lemma run_bare_chars (ps : list param_ast) (pn : list string)
  (vs : list (list string)) (l : list ascii) :
  forallb (fun c => is_safe_char c && no_newline c) l = true ->
  forall cur,
    fold_left step l (InBare n ps pn vs cur)
    = InBare n ps pn vs (cur ++ map ch l).
Proof.
  induction l as [|c l IH]; cbn [forallb fold_left map]; intros H cur.
  - now rewrite app_nil_r.
  - apply andb_true_iff in H. destruct H as [Hc Hl].
    apply andb_true_iff in Hc. destruct Hc as [Hc _].
    cbn [step]. rewrite Hc, (IH Hl), <- app_assoc. reflexivity.
Qed.

Lemma run_value_chars (ps : list param_ast) (l : list ascii) :
  forall acc,
    fold_left step l (InValue n ps acc) = InValue n ps (acc ++ map ch l).
Proof.
  induction l as [|c l IH]; cbn [fold_left map]; intros acc.
  - now rewrite app_nil_r.
  - cbn [step]. rewrite IH, <- app_assoc. reflexivity.
Qed.

(** The values of one parameter, and the separator that follows them. *)
Lemma run_values_then (ps : list param_ast) (pn : list string)
  (t : ascii) (tail : list ascii) (vs : list string) :
  t = ";"%char \/ t = ":"%char ->
  forall v done,
    forallb is_bare_value (v :: vs) = true ->
    fold_left step (chars (join "," (v :: vs)) ++ t :: tail)
      (InBare n ps pn done [])
    = fold_left step tail (after_value n ps pn (done ++ map cs (v :: vs)) t).
Proof.
  intros Ht.
  assert (Hstep : forall done cur,
             step (InBare n ps pn done cur) t
             = after_value n ps pn (done ++ [cur]) t)
    by (intros; destruct Ht; subst t; reflexivity).
  induction vs as [|v' vs IH]; intros v done H;
    cbn [forallb] in H; apply andb_true_iff in H; destruct H as [Hv Hvs].
  - cbn [join map]. rewrite fold_left_app, (run_bare_chars _ _ _ _ Hv).
    cbn [fold_left app]. now rewrite Hstep.
  - change (join "," (v :: v' :: vs))
      with (v ++ "," ++ join "," (v' :: vs))%string.
    rewrite !chars_app, <- !app_assoc, fold_left_app.
    rewrite (run_bare_chars _ _ _ _ Hv).
    change (chars ",") with [","%char].
    cbn [app fold_left].
    change (step (InBare n ps pn done (map ch (chars v))) ","%char)
      with (InBare n ps pn (done ++ [cs v]) []).
    rewrite (IH v' (done ++ [cs v]) Hvs).
    cbn [map]. now rewrite <- app_assoc.
Qed.

Lemma is_name_chars (k : string) :
  is_name k = true ->
  forallb is_name_char (chars k) = true /\ is_nil (cs k) = false.
Proof.
  unfold is_name, cs. intros H. apply andb_true_iff in H.
  destruct H as [Hnil Hall]. split; [exact Hall|].
  destruct (chars k); [discriminate Hnil|reflexivity].
Qed.

(** One parameter after its semicolon, and the separator that follows
    it. *)
Lemma run_param (asts : list param_ast) (t : ascii) (tail : list ascii)
  (kv : string * list string) :
  t = ";"%char \/ t = ":"%char ->
  is_bare_param kv = true ->
  fold_left step
    (chars (fst kv) ++ "="%char :: chars (join "," (snd kv)) ++ t :: tail)
    (InParamName n asts [])
  = fold_left step tail
      (after_value n asts (cs (fst kv)) (map cs (snd kv)) t).
Proof.
  intros Ht H. destruct kv as [k vs]. unfold is_bare_param in H.
  cbn [fst snd] in *.
  apply andb_true_iff in H. destruct H as [H Hvs].
  apply andb_true_iff in H. destruct H as [Hk Hnil].
  destruct (is_name_chars _ Hk) as [Hkc Hknil].
  destruct vs as [|v vs]; [discriminate Hnil|].
  rewrite fold_left_app, (run_pname_chars _ _ Hkc). cbn [app fold_left].
  fold (cs k).
  assert (Heq : step (InParamName n asts (cs k)) "="%char
                = InBare n asts (cs k) [] [])
    by (cbn [step]; now rewrite Hknil).
  rewrite Heq. now rewrite (run_values_then _ _ _ _ Ht v [] Hvs).
Qed.

Lemma ready_after_quoted (asts : list param_ast) (kv : string * list string) :
  ready n (AfterQuoted n asts (cs (fst kv)) (map cs (snd kv)))
        (asts ++ [ast_of kv]).
Proof. split; reflexivity. Qed.

Lemma run_params (ps : Dict.t (list string)) :
  forall st asts tail,
    ready n st asts ->
    forallb is_bare_param ps = true ->
    fold_left step (text_of_params ps (":"%char :: tail)) st
    = fold_left step tail (InValue n (asts ++ map ast_of ps) []).
Proof.
  induction ps as [|kv rest IH]; intros st asts tail [Hsemi Hcolon] H.
  - cbn [text_of_params fold_left map]. now rewrite Hcolon, app_nil_r.
  - cbn [forallb] in H. apply andb_true_iff in H. destruct H as [Hkv Hrest].
    cbn [text_of_params fold_left map]. rewrite Hsemi.
    transitivity
      (fold_left step (text_of_params rest (":"%char :: tail))
         (AfterQuoted n asts (cs (fst kv)) (map cs (snd kv)))).
    + destruct rest as [|kv' rest]; cbn [text_of_params].
      * now rewrite (@run_param asts ":"%char tail kv (or_intror eq_refl) Hkv).
      * now rewrite (@run_param asts ";"%char _ kv (or_introl eq_refl) Hkv).
    + rewrite (IH _ _ tail (ready_after_quoted asts kv) Hrest).
      now rewrite <- app_assoc.
Qed.

End Run.

(** *** What [__str__] prints *)

Lemma get_In (ps : Dict.t (list string)) :
  NoDup (Dict.keys ps) ->
  forall k v, In (k, v) ps -> Dict.get ps k = Some v.
Proof.
  induction ps as [|[k' v'] ps IH]; intros Hnd k v Hin; [destruct Hin|].
  cbn [Dict.keys map fst] in Hnd. inversion Hnd as [|? ? Hk' Hnd']; subst.
  cbn [Dict.get]. destruct (String.eqb_spec k' k) as [->|Hne].
  - destruct Hin as [Heq|Hin]; [now injection Heq as ->|].
    exfalso. apply Hk'. unfold Dict.keys in *.
    change k with (fst (k, v)). now apply in_map.
  - destruct Hin as [Heq|Hin]; [now injection Heq|].
    now apply IH.
Qed.

Lemma params_str_chars (all : Dict.t (list string)) (l : Dict.t (list string)) :
  (forall k v, In (k, v) l -> Dict.get all k = Some v) ->
  forall acc tail,
    chars
      (fold_left
         (fun params_str pname =>
            params_str ++ ";" ++ pname ++ "="
              ++ join "," (match Dict.get all pname with
                           | Some values => values
                           | None => []
                           end))%string
         (Dict.keys l) acc) ++ tail
    = chars acc ++ text_of_params l tail.
Proof.
  induction l as [|[k v] l IH]; intros Hget acc tail; [reflexivity|].
  cbn [Dict.keys map fst fold_left]. fold (Dict.keys l).
  rewrite IH by (intros; apply Hget; now right).
  rewrite (Hget k v (or_introl eq_refl)).
  rewrite !chars_app, <- !app_assoc. reflexivity.
Qed.

Lemma str_chars (T : ContentLine.t) :
  NoDup (Dict.keys (ContentLine.params T)) ->
  chars (ContentLine.str T)
  = chars (ContentLine.name T)
      ++ text_of_params (ContentLine.params T)
           (":"%char :: chars (ContentLine.value T)).
Proof.
  intros Hnd. unfold ContentLine.str.
  rewrite chars_app, chars_app.
  rewrite (@params_str_chars (ContentLine.params T) (ContentLine.params T)
             (@get_In _ Hnd)).
  rewrite chars_app. reflexivity.
Qed.

(** *** No newline in what [__str__] prints *)

Lemma no_newline_contains (s : string) :
  forallb no_newline (chars s) = true ->
  contains LF s || contains CR s = false.
Proof.
  induction s as [|c s IH]; [reflexivity|].
  cbn [chars list_ascii_of_string forallb contains]. fold (chars s).
  intros H. apply andb_true_iff in H. destruct H as [Hc Hs].
  specialize (IH Hs). apply orb_false_iff in IH. destruct IH as [-> ->].
  unfold no_newline in Hc. apply negb_true_iff, orb_false_iff in Hc.
  destruct Hc as [Hlf Hcr].
  rewrite (Ascii.eqb_sym LF c), (Ascii.eqb_sym CR c), Hlf, Hcr. reflexivity.
Qed.

Lemma name_char_no_newline (c : ascii) :
  Grammar.is_name_char c = true -> no_newline c = true.
Proof.
  unfold no_newline. intros H.
  destruct (Ascii.eqb_spec c LF) as [->|_]; [discriminate H|].
  destruct (Ascii.eqb_spec c CR) as [->|_]; [discriminate H|reflexivity].
Qed.

Lemma forallb_impl {A : Type} (p q : A -> bool) (l : list A) :
  (forall x, p x = true -> q x = true) ->
  forallb p l = true -> forallb q l = true.
Proof.
  intros Hpq. induction l as [|x l IH]; cbn; [reflexivity|].
  intros H. apply andb_true_iff in H. destruct H as [Hx Hl].
  now rewrite (Hpq _ Hx), (IH Hl).
Qed.

Lemma name_no_newline (k : string) :
  is_name k = true -> forallb no_newline (chars k) = true.
Proof.
  intros H. apply is_name_chars in H. destruct H as [H _].
  exact (forallb_impl _ _ _ name_char_no_newline H).
Qed.

Lemma values_no_newline (vs : list string) :
  forallb is_bare_value vs = true ->
  forallb no_newline (chars (join "," vs)) = true.
Proof.
  assert (Hbare : forall v, is_bare_value v = true
                            -> forallb no_newline (chars v) = true).
  { intros v. apply forallb_impl. intros c Hc.
    apply andb_true_iff in Hc. tauto. }
  induction vs as [|v [|v' vs] IH]; intros H.
  - reflexivity.
  - cbn [forallb join] in *. apply andb_true_iff in H. now apply Hbare.
  - change (join "," (v :: v' :: vs))
      with (v ++ "," ++ join "," (v' :: vs))%string.
    cbn [forallb] in H. apply andb_true_iff in H. destruct H as [Hv Hvs].
    rewrite !chars_app, !forallb_app, (Hbare _ Hv), (IH Hvs). reflexivity.
Qed.

Lemma params_no_newline (ps : Dict.t (list string)) (tail : list ascii) :
  forallb is_bare_param ps = true ->
  forallb no_newline tail = true ->
  forallb no_newline (text_of_params ps tail) = true.
Proof.
  intros Hps Htail. induction ps as [|[k vs] ps IH]; [exact Htail|].
  cbn [forallb] in Hps. apply andb_true_iff in Hps. destruct Hps as [Hkv Hps].
  unfold is_bare_param in Hkv. cbn [fst snd] in Hkv.
  apply andb_true_iff in Hkv. destruct Hkv as [Hkv Hvs].
  apply andb_true_iff in Hkv. destruct Hkv as [Hk _].
  cbn [text_of_params fst snd forallb].
  rewrite forallb_app, (name_no_newline _ Hk). cbn [forallb].
  rewrite forallb_app, (values_no_newline _ Hvs), (IH Hps). reflexivity.
Qed.

(** *** The dictionary [interpret_ast] builds *)

Lemma set_fresh (d : Dict.t (list string)) (k : string) (v : list string) :
  ~ In k (Dict.keys d) -> Dict.set d k v = d ++ [(k, v)].
Proof.
  induction d as [|[k' v'] d IH]; intros H; [reflexivity|].
  cbn [Dict.set]. destruct (String.eqb_spec k' k) as [->|Hne].
  - exfalso. apply H. now left.
  - cbn [app]. rewrite IH; [reflexivity|]. intros Hin. apply H. now right.
Qed.

Lemma interpret_params (l : Dict.t (list string)) :
  forall acc,
    NoDup (Dict.keys (acc ++ l)) ->
    fold_left
      (fun params param_ast =>
         Dict.set params (join EmptyString (Grammar.p_name param_ast))
           (map (join EmptyString) (Grammar.p_values param_ast)))
      (map ast_of l) acc
    = acc ++ l.
Proof.
  induction l as [|[k vs] l IH]; intros acc Hnd.
  - now rewrite app_nil_r.
  - cbn [map fold_left ast_of Grammar.p_name Grammar.p_values fst snd].
    rewrite join_cs, map_join_cs.
    unfold Dict.keys in Hnd. rewrite map_app in Hnd. cbn [map fst] in Hnd.
    rewrite set_fresh.
    + rewrite IH; [now rewrite <- app_assoc|].
      unfold Dict.keys. rewrite <- app_assoc, map_app. exact Hnd.
    + apply NoDup_remove_2 in Hnd. intros Hin. apply Hnd.
      apply in_or_app. now left.
Qed.

(** For a token whose parameter values are all bare, tokenizing what
    [__str__] prints gives the token back: name, parameters in their
    order, values in their order, and value. *)
Theorem parse_str_bare (T : ContentLine.t) :
  bare_token T -> ContentLine.parse (ContentLine.str T) = Ok T.
Proof.
  intros (Hname & Hupper & Hnd & Hps & Hvalue).
  assert (Hchars := str_chars T Hnd).
  unfold ContentLine.parse.
  rewrite no_newline_contains.
  2:{ rewrite Hchars, forallb_app, (name_no_newline _ Hname).
      apply params_no_newline; [exact Hps|]. exact Hvalue. }
  unfold Grammar.GRAMMAR_parse. fold (chars (ContentLine.str T)).
  rewrite Hchars, fold_left_app.
  destruct (is_name_chars _ Hname) as [Hnc Hnnil].
  rewrite run_name_chars by exact Hnc. cbn [app].
  fold (cs (ContentLine.name T)).
  rewrite run_params with (n := cs (ContentLine.name T)) (asts := []);
    [|split; cbn [Grammar.step]; now rewrite Hnnil|exact Hps].
  rewrite run_value_chars. cbn [app Grammar.finish].
  fold (cs (ContentLine.value T)).
  unfold ContentLine.interpret_ast, ContentLine.new.
  cbn [Grammar.a_name Grammar.a_params Grammar.a_value].
  rewrite !join_cs, Hupper.
  rewrite (interpret_params (ContentLine.params T) []) by exact Hnd.
  now destruct T.
Qed.

Lemma parse_str_bare_witness :
  ContentLine.parse (ContentLine.str dtstart) = Ok dtstart.
Proof.
  apply (@parse_str_bare dtstart).
  repeat split; try reflexivity.
  cbn. repeat constructor; cbn; intuition discriminate.
Defined.

(** ** The examples of the specification *)

Example build_VEVENT :
  lines_to_container
    (PyList [PyStr "BEGIN:VEVENT"; PyStr "SUMMARY:x"; PyStr "END:VEVENT"])
  = Some (Ok [PyContainer "VEVENT" [PyLine SUMMARY_x]]).
Proof. reflexivity. Qed.

Example build_mismatched_END :
  lines_to_container (PyList [PyStr "BEGIN:VEVENT"; PyStr "END:VTODO"])
  = Some (Err (ParseError "Expected END:VEVENT, got END:VTODO")).
Proof. reflexivity. Qed.

(** The lines are tokenized as the builder asks for them: a mismatched END
    is reported before a later line that does not tokenize is read. *)
Example build_reads_lazily :
  lines_to_container
    (PyList [PyStr "BEGIN:VEVENT"; PyStr "END:VTODO"; PyStr "no colon"])
  = Some (Err (ParseError "Expected END:VEVENT, got END:VTODO"))
  /\ lines_to_container
       (PyList [PyStr "BEGIN:VEVENT"; PyStr "no colon"; PyStr "END:VTODO"])
     = Some (Err (ParseError EmptyString)).
Proof. split; reflexivity. Qed.

Example tokenize_embedded_newline :
  ContentLine.parse ("A:1" ++ String LF "B:2")
  = Err (ValueError "ContentLine can only contain escaped newlines").
Proof. reflexivity. Qed.

Example string_to_container_folded :
  calendar_string_to_containers
    (PyStr ("BEGIN:VEVENT" ++ String CR (String LF "SUMMARY:hel")
              ++ String CR (String LF " lo") ++ String CR (String LF "END:VEVENT")))
  = Some (Ok [PyContainer "VEVENT"
                [PyLine (ContentLine.new "SUMMARY" [] "hello")]]).
Proof. reflexivity. Qed.

(** * More of the code *)

(** ** Parameters of a content line *)

Lemma get_set (d : Dict.t (list string)) (k k' : string) (v : list string) :
  Dict.get (Dict.set d k v) k'
  = if String.eqb k k' then Some v else Dict.get d k'.
Proof.
  induction d as [|[k0 v0] d IH]; cbn [Dict.set Dict.get].
  - reflexivity.
  - destruct (String.eqb_spec k0 k) as [->|Hne]; cbn [Dict.get].
    + now destruct (String.eqb k k').
    + destruct (String.eqb_spec k0 k') as [->|Hne'].
      * destruct (String.eqb_spec k k') as [->|_]; [congruence|reflexivity].
      * exact IH.
Qed.

Lemma get_app (d1 d2 : Dict.t (list string)) (k : string) :
  Dict.get (d1 ++ d2) k
  = match Dict.get d1 k with
    | Some v => Some v
    | None => Dict.get d2 k
    end.
Proof.
  induction d1 as [|[k0 v0] d1 IH]; cbn [app Dict.get]; [reflexivity|].
  now destruct (String.eqb k0 k).
Qed.

Lemma get_None (d : Dict.t (list string)) (k : string) :
  Dict.get d k = None <-> ~ In k (Dict.keys d).
Proof.
  induction d as [|[k0 v0] d IH]; cbn [Dict.get Dict.keys map fst In].
  - tauto.
  - destruct (String.eqb_spec k0 k) as [->|Hne].
    + split; [discriminate|]. intros H. exfalso. apply H. now left.
    + fold (Dict.keys d). rewrite IH. tauto.
Qed.

(** Assigning to a key keeps the keys in their places: a new key goes to
    the end. *)
Lemma keys_set (d : Dict.t (list string)) (k : string) (v : list string) :
  Dict.keys (Dict.set d k v)
  = if in_dec string_dec k (Dict.keys d) then Dict.keys d
    else Dict.keys d ++ [k].
Proof.
  induction d as [|[k0 v0] d IH]; cbn [Dict.set Dict.keys map fst].
  - now destruct (in_dec string_dec k []).
  - fold (Dict.keys d) in *.
    destruct (String.eqb_spec k0 k) as [->|Hne]; cbn [Dict.keys map fst].
    + destruct (in_dec string_dec k (k :: Dict.keys d)) as [_|Hn];
        [reflexivity|]. exfalso. apply Hn. now left.
    + fold (Dict.keys (Dict.set d k v)). rewrite IH.
      destruct (in_dec string_dec k (Dict.keys d)) as [Hin|Hn];
        destruct (in_dec string_dec k (k0 :: Dict.keys d)) as [Hin'|Hn'];
        try reflexivity.
      * exfalso. apply Hn'. now right.
      * destruct Hin' as [Heq|Hin']; [congruence|contradiction].
Qed.

Lemma NoDup_keys_set (d : Dict.t (list string)) (k : string)
  (v : list string) :
  NoDup (Dict.keys d) -> NoDup (Dict.keys (Dict.set d k v)).
Proof.
  intros Hnd. rewrite keys_set.
  destruct (in_dec string_dec k (Dict.keys d)) as [Hin|Hn]; [exact Hnd|].
  apply NoDup_app; [exact Hnd|repeat constructor; intros []|].
  intros a Ha [<-|[]]. contradiction.
Qed.

(** X1.  Reading a parameter back after it is set gives the values set;
    the other parameters are as they were; a parameter that is not there
    raises [KeyError]; and setting a parameter keeps the order of the
    parameters, a new one going last, so each name stays there once. *)
Theorem ContentLine_setitem_getitem (self : ContentLine.t) (item : string)
  (values : list string) :
  ContentLine.__getitem__ (ContentLine.__setitem__ self item values) item
  = Ok values
  /\ (forall other,
         other <> item ->
         ContentLine.__getitem__ (ContentLine.__setitem__ self item values)
           other
         = ContentLine.__getitem__ self other)
  /\ (~ In item (Dict.keys (ContentLine.params self)) ->
      ContentLine.__getitem__ self item = Err KeyError
      /\ Dict.keys (ContentLine.params
                      (ContentLine.__setitem__ self item values))
         = Dict.keys (ContentLine.params self) ++ [item])
  /\ (In item (Dict.keys (ContentLine.params self)) ->
      Dict.keys (ContentLine.params (ContentLine.__setitem__ self item values))
      = Dict.keys (ContentLine.params self))
  /\ (NoDup (Dict.keys (ContentLine.params self)) ->
      NoDup (Dict.keys (ContentLine.params
                          (ContentLine.__setitem__ self item values)))).
Proof.
  unfold ContentLine.__getitem__, ContentLine.__setitem__.
  cbn [ContentLine.params].
  split; [|split; [|split; [|split]]].
  - now rewrite get_set, String.eqb_refl.
  - intros other Hne. rewrite get_set.
    destruct (String.eqb_spec item other) as [->|_]; [congruence|reflexivity].
  - intros Hn. split.
    + apply get_None in Hn. now rewrite Hn.
    + rewrite keys_set.
      now destruct (in_dec string_dec item (Dict.keys (ContentLine.params self))).
  - intros Hin. rewrite keys_set.
    now destruct (in_dec string_dec item (Dict.keys (ContentLine.params self))).
  - apply NoDup_keys_set.
Qed.

Lemma ContentLine_setitem_getitem_witness :
  ContentLine.__getitem__ dtstart "VALUE" = Err KeyError
  /\ Dict.keys (ContentLine.params
                  (ContentLine.__setitem__ dtstart "VALUE" ["DATE"]))
     = Dict.keys (ContentLine.params dtstart) ++ ["VALUE"%string].
Proof.
  apply (proj1 (proj2 (proj2
           (ContentLine_setitem_getitem dtstart "VALUE" ["DATE"%string])))).
  cbn. intuition discriminate.
Defined.

(** ** What [interpret_ast] builds *)

Lemma interpret_fold (l : list Grammar.param_ast) :
  forall acc k,
    Dict.get
      (fold_left
         (fun params param_ast =>
            Dict.set params (join EmptyString (Grammar.p_name param_ast))
              (map (join EmptyString) (Grammar.p_values param_ast)))
         l acc) k
    = match Dict.get (rev (map kv_of l)) k with
      | Some v => Some v
      | None => Dict.get acc k
      end.
Proof.
  induction l as [|pa l IH]; intros acc k; [reflexivity|].
  cbn [fold_left map rev]. rewrite IH, get_app, get_set.
  destruct (Dict.get (rev (map kv_of l)) k); [reflexivity|].
  unfold kv_of at 1. cbn [Dict.get].
  now destruct (String.eqb (join EmptyString (Grammar.p_name pa)) k).
Qed.

Lemma interpret_fold_NoDup (l : list Grammar.param_ast) :
  forall acc,
    NoDup (Dict.keys acc) ->
    NoDup
      (Dict.keys
         (fold_left
            (fun params param_ast =>
               Dict.set params (join EmptyString (Grammar.p_name param_ast))
                 (map (join EmptyString) (Grammar.p_values param_ast)))
            l acc)).
Proof.
  induction l as [|pa l IH]; intros acc Hnd; [exact Hnd|].
  cbn [fold_left]. apply IH. now apply NoDup_keys_set.
Qed.



(** X2.  In the token read from a syntax tree, looking up a parameter
    gives the values of the last occurrence of its name in the line, and
    each name is held once: a parameter given twice keeps its last
    values. *)
Theorem interpret_ast_params (ast : Grammar.ast) :
  NoDup (Dict.keys (ContentLine.params (ContentLine.interpret_ast ast)))
  /\ forall k,
       Dict.get (ContentLine.params (ContentLine.interpret_ast ast)) k
       = Dict.get (rev (map kv_of (Grammar.a_params ast))) k.
Proof.
  unfold ContentLine.interpret_ast, ContentLine.new.
  cbn [ContentLine.params]. split.
  - apply interpret_fold_NoDup. constructor.
  - intros k. rewrite interpret_fold.
    now destruct (Dict.get (rev (map kv_of (Grammar.a_params ast))) k).
Qed.



(** ** Unfolding: blank lines, continuations, and what comes out *)

Lemma unfold_loop_nonblank (lines : list string) :
  forall current_line,
    unfold_loop (map PyStr lines) current_line
    = unfold_loop (map PyStr (filter nonblank lines)) current_line.
Proof.
  induction lines as [|l lines IH]; intros cur; [reflexivity|].
  cbn [map filter]. unfold nonblank at 1.
  destruct (Nat.eqb (String.length (strip isspace l)) 0) eqn:Hblank;
    cbn [negb map unfold_loop]; rewrite Hblank; [apply IH|].
  destruct (String.eqb cur EmptyString); [apply IH|].
  destruct l as [|c tail]; [reflexivity|].
  destruct (Ascii.eqb c SPACE || Ascii.eqb c TAB); [apply IH|].
  now rewrite IH.
Qed.

(** X4.  Blank lines count for nothing: the unfolder yields the same
    logical lines with and without them, also when a blank line stands
    between a line and its continuation. *)
Theorem unfold_lines_skips_blank (lines : list string) :
  unfold_lines (PyList (map PyStr lines))
  = unfold_lines (PyList (map PyStr (filter nonblank lines)))
  /\ (forallb (fun l => negb (nonblank l)) lines = true ->
      unfold_lines (PyList (map PyStr lines)) = Stop).
Proof.
  unfold unfold_lines. cbn [is_Iterable negb iterate]. split.
  - apply unfold_loop_nonblank.
  - intros H. rewrite unfold_loop_nonblank.
    replace (filter nonblank lines) with (@nil string); [reflexivity|].
    induction lines as [|l lines IH]; [reflexivity|].
    cbn [forallb filter] in *. apply andb_true_iff in H.
    destruct H as [Hl Hlines]. apply negb_true_iff in Hl. rewrite Hl.
    now apply IH.
Qed.

Lemma unfold_lines_skips_blank_witness :
  unfold_lines (PyList (map PyStr [EmptyString; String CR EmptyString]))
  = Stop.
Proof.
  apply (proj2 (unfold_lines_skips_blank [EmptyString; String CR EmptyString])).
  reflexivity.
Defined.

Lemma append_nonempty (a b : string) :
  String.eqb a EmptyString = false ->
  String.eqb (a ++ b) EmptyString = false.
Proof. destruct a; [discriminate|reflexivity]. Qed.

Lemma join_empty_cons (x : string) (l : list string) :
  join EmptyString (x :: l) = (x ++ join EmptyString l)%string.
Proof.
  destruct l as [|y l]; cbn [join]; [|reflexivity].
  induction x as [|c x IH]; cbn; [reflexivity|]. now rewrite <- IH.
Qed.

Lemma append_assoc (a b c : string) :
  ((a ++ b) ++ c = a ++ (b ++ c))%string.
Proof.
  induction a as [|x a IH]; cbn; [reflexivity|]. now rewrite IH.
Qed.

(** A continuation line is blank when what follows its first character
    is. *)
Lemma nonblank_continuation (c : ascii) (tail : string) :
  Ascii.eqb c SPACE || Ascii.eqb c TAB = true ->
  nonblank (String c tail) = nonblank tail.
Proof.
  intros H. unfold nonblank, strip. cbn [lstrip].
  replace (isspace c) with true; [reflexivity|].
  apply orb_true_iff in H. destruct H as [H|H];
    apply Ascii.eqb_eq in H; now subst c.
Qed.

(** The continuation lines of a group go to the end of the line being
    built. *)
Lemma unfold_loop_continuations (conts : list string) :
  forall (rest : list pyobj) (current_line : string),
    String.eqb current_line EmptyString = false ->
    forallb (fun l => nonblank l && is_continuation l) conts = true ->
    unfold_loop (map PyStr conts ++ rest) current_line
    = unfold_loop rest
        (current_line
           ++ join EmptyString
                (map (fun l => strip is_cr (but_first l)) conts))%string.
Proof.
  induction conts as [|l conts IH]; intros rest cur Hcur H.
  - cbn [map app join]. f_equal.
    induction cur as [|c cur IHc]; [discriminate|].
    cbn. destruct cur; [reflexivity|]. now rewrite <- IHc.
  - cbn [forallb] in H. apply andb_true_iff in H. destruct H as [Hl Hconts].
    apply andb_true_iff in Hl. destruct Hl as [Hnb Hc].
    destruct l as [|c tail]; [discriminate Hc|]. cbn [is_continuation] in Hc.
    cbn [map app unfold_loop]. unfold nonblank in Hnb.
    apply negb_true_iff in Hnb. rewrite Hnb, Hcur, Hc.
    rewrite IH by (assumption || now apply append_nonempty).
    cbn [but_first]. now rewrite join_empty_cons, append_assoc.
Qed.

Lemma unfold_loop_groups (groups : list group) :
  forall current_line,
    String.eqb current_line EmptyString = false ->
    forallb (fun g => is_group g && starts_unfolded (fst g)) groups = true ->
    unfold_loop (map PyStr (flat_map lines_of_group groups)) current_line
    = of_list (current_line :: map unfolded groups).
Proof.
  induction groups as [|[first conts] groups IH]; intros cur Hcur H.
  - cbn. now rewrite Hcur.
  - cbn [forallb] in H. apply andb_true_iff in H. destruct H as [Hg Hgroups].
    apply andb_true_iff in Hg. destruct Hg as [Hg Hstart].
    unfold is_group in Hg. cbn [fst snd] in *.
    apply andb_true_iff in Hg. destruct Hg as [Hnb Hconts].
    change (flat_map lines_of_group ((first, conts) :: groups))
      with ((first :: conts) ++ flat_map lines_of_group groups).
    cbn [map app unfold_loop]. pose proof Hnb as Hnb'. unfold nonblank in Hnb'.
    apply negb_true_iff in Hnb'. rewrite Hnb', Hcur.
    destruct first as [|c tail]; [discriminate Hnb|].
    cbn [starts_unfolded] in Hstart. apply negb_true_iff in Hstart.
    rewrite Hstart. rewrite map_app.
    rewrite unfold_loop_continuations
      by (assumption || now apply nonblank_strip_cr).
    rewrite IH; [reflexivity| |assumption].
    apply append_nonempty. now apply nonblank_strip_cr.
Qed.

(** X5.  A line followed by its continuation lines unfolds to one logical
    line: the line, then each continuation without its first character,
    every piece with the carriage returns at its ends stripped.  A
    sequence of such groups, the first line of each group but the first
    not starting with a space or a tab, unfolds to one logical line per
    group, in order.  (The first line of all may start with a space: there
    is nothing to continue.) *)
Theorem unfold_lines_groups (g : group) (groups : list group) :
  is_group g = true ->
  forallb (fun g' => is_group g' && starts_unfolded (fst g')) groups = true ->
  unfold_lines (PyList (map PyStr (flat_map lines_of_group (g :: groups))))
  = of_list (map unfolded (g :: groups)).
Proof.
  intros Hg Hgroups. destruct g as [first conts].
  unfold is_group in Hg. cbn [fst snd] in Hg.
  apply andb_true_iff in Hg. destruct Hg as [Hnb Hconts].
  unfold unfold_lines. cbn [is_Iterable negb iterate].
  change (flat_map lines_of_group ((first, conts) :: groups))
    with ((first :: conts) ++ flat_map lines_of_group groups).
  cbn [map app unfold_loop]. pose proof Hnb as Hnb'. unfold nonblank in Hnb'.
  apply negb_true_iff in Hnb'. rewrite Hnb'. cbn [String.eqb].
  rewrite map_app.
  rewrite unfold_loop_continuations
    by (assumption || now apply nonblank_strip_cr).
  rewrite unfold_loop_groups; [reflexivity| |assumption].
  apply append_nonempty. now apply nonblank_strip_cr.
Qed.

Lemma unfold_lines_groups_witness :
  unfold_lines
    (PyList (map PyStr (flat_map lines_of_group
                          [description_group; ("SUMMARY:x"%string, [])])))
  = of_list (map unfolded [description_group; ("SUMMARY:x"%string, [])]).
Proof.
  apply (@unfold_lines_groups description_group [("SUMMARY:x"%string, [])]);
    reflexivity.
Defined.

(** *** The lines that come out *)

Lemma starts_lstrip (s : string) : starts_with_CR (lstrip is_cr s) = false.
Proof.
  induction s as [|c s IH]; cbn; [reflexivity|].
  destruct (is_cr c) eqn:Hc; [exact IH|]. cbn. exact Hc.
Qed.

Lemma starts_rstrip (s : string) :
  starts_with_CR s = false -> starts_with_CR (rstrip is_cr s) = false.
Proof.
  destruct s as [|c s]; cbn; [reflexivity|]. intros Hc.
  destruct (rstrip is_cr s); [rewrite Hc|]; cbn; assumption.
Qed.

Lemma ends_rstrip (s : string) : ends_with_CR (rstrip is_cr s) = false.
Proof.
  induction s as [|c s IH]; cbn [rstrip]; [reflexivity|].
  destruct (rstrip is_cr s) as [|d r] eqn:Hr.
  - destruct (is_cr c) eqn:Hc; cbn; [reflexivity|exact Hc].
  - exact IH.
Qed.

Lemma strip_is_clean (s : string) :
  String.eqb (strip is_cr s) EmptyString = false ->
  is_clean (strip is_cr s) = true.
Proof.
  intros H. unfold is_clean. rewrite H. unfold strip.
  rewrite (starts_rstrip _ (starts_lstrip s)), ends_rstrip. reflexivity.
Qed.

Lemma ends_append (a b : string) :
  String.eqb b EmptyString = false ->
  ends_with_CR (a ++ b) = ends_with_CR b.
Proof.
  intros Hb. induction a as [|c a IH]; [reflexivity|].
  cbn [String.append ends_with_CR]. rewrite IH.
  destruct (a ++ b)%string eqn:Hab; [|reflexivity].
  destruct a; [|discriminate]. cbn in Hab. subst b. discriminate.
Qed.

Lemma clean_append (a b : string) :
  is_clean a = true -> is_clean b = true -> is_clean (a ++ b) = true.
Proof.
  unfold is_clean. intros Ha Hb.
  apply andb_true_iff in Ha. destruct Ha as [Ha _].
  apply andb_true_iff in Ha. destruct Ha as [Hane Hastart].
  apply andb_true_iff in Hb. destruct Hb as [Hb Hbend].
  apply andb_true_iff in Hb. destruct Hb as [Hbne _].
  apply negb_true_iff in Hane, Hbne.
  rewrite (@append_nonempty a b Hane), (@ends_append a b Hbne), Hbend.
  destruct a; [discriminate|]. cbn in *. now rewrite Hastart.
Qed.

Lemma unfold_loop_clean (lines : list string) :
  forall current_line,
    String.eqb current_line EmptyString = true
    \/ is_clean current_line = true ->
    yields_only is_clean (unfold_loop (map PyStr lines) current_line) = true.
Proof.
  induction lines as [|l lines IH]; intros cur Hcur.
  - cbn [map unfold_loop].
    destruct (String.eqb cur EmptyString) eqn:He; [reflexivity|].
    destruct Hcur as [Hcur|Hcur]; [discriminate|]. cbn. now rewrite Hcur.
  - cbn [map unfold_loop].
    destruct (Nat.eqb (String.length (strip isspace l)) 0) eqn:Hblank;
      [now apply IH|].
    assert (Hnb : nonblank l = true)
      by (unfold nonblank; now rewrite Hblank).
    assert (Hclean : is_clean (strip is_cr l) = true)
      by (apply strip_is_clean; now apply nonblank_strip_cr).
    destruct (String.eqb cur EmptyString) eqn:He; [apply IH; now right|].
    destruct Hcur as [Hcur|Hcur]; [discriminate|].
    destruct l as [|c tail]; [discriminate Hnb|].
    destruct (Ascii.eqb c SPACE || Ascii.eqb c TAB) eqn:Hc.
    + apply IH. right. apply clean_append; [exact Hcur|].
      rewrite (nonblank_continuation _ tail Hc) in Hnb.
      apply strip_is_clean. now apply nonblank_strip_cr.
    + cbn [yields_only]. rewrite Hcur. apply IH. now right.
Qed.

(** X6.  Whatever the physical lines, the unfolder never raises, and
    every logical line it yields is not empty and has no carriage return
    at its start or at its end. *)
Theorem unfold_lines_yields_clean (lines : list string) :
  yields_only is_clean (unfold_lines (PyList (map PyStr lines))) = true.
Proof.
  unfold unfold_lines. cbn [is_Iterable negb iterate].
  apply unfold_loop_clean. now left.
Qed.

(** ** The top-level [parse] *)

Lemma give_all_nil (frames : list Stack.frame) (res : list pyobj) :
  give_all frames res [] = (frames, res).
Proof.
  destruct frames as [|[name acc] frames]; cbn; now rewrite app_nil_r.
Qed.

Lemma give_all_cons (frames : list Stack.frame) (res : list pyobj)
  (x : pyobj) (items : list pyobj) :
  give_all frames res (x :: items)
  = give_all (fst (Stack.give frames res x)) (snd (Stack.give frames res x))
      items.
Proof.
  destruct frames as [|[name acc] frames]; cbn; now rewrite <- app_assoc.
Qed.

Lemma run_line (frames : list Stack.frame) (res : list pyobj)
  (line : ContentLine.t) (rest : gen ContentLine.t) :
  is_BEGIN line = false -> (frames = [] \/ is_END line = false) ->
  Stack.run frames res (Yield line rest)
  = Stack.run (fst (Stack.give frames res (PyLine line)))
              (snd (Stack.give frames res (PyLine line))) rest.
Proof.
  intros Hb He. cbn [Stack.run]. rewrite Hb.
  destruct frames as [|[name acc] frames]; [reflexivity|].
  destruct He as [He|He]; [discriminate|]. now rewrite He.
Qed.

(** A balanced run of tokens hands its items to the innermost open block,
    or to the top level. *)
Lemma run_balanced (pre : list ContentLine.t) (items : list pyobj) :
  balanced pre items ->
  forall frames res g,
    Stack.run frames res (prepend pre g)
    = Stack.run (fst (give_all frames res items))
                (snd (give_all frames res items)) g.
Proof.
  induction 1 as [|line ts items Hb He _ IH
                  |b e body inner ts items Hb He Hv Hbody IHbody Hts IHts];
    intros frames res g.
  - now rewrite give_all_nil.
  - change (prepend (line :: ts) g) with (Yield line (prepend ts g)).
    rewrite run_line by (assumption || now right).
    now rewrite IH, give_all_cons.
  - change (prepend (b :: body ++ e :: ts) g)
      with (Yield b (prepend (body ++ e :: ts) g)).
    rewrite prepend_app.
    change (prepend (e :: ts) g) with (Yield e (prepend ts g)).
    cbn [Stack.run]. rewrite Hb, IHbody. cbn [give_all fst snd app].
    rewrite run_END
      by (assumption || now apply (balanced_only_items Hbody)).
    now rewrite IHts, give_all_cons.
Qed.

Lemma balanced_app (ts1 : list ContentLine.t) (items1 : list pyobj) :
  balanced ts1 items1 ->
  forall ts2 items2,
    balanced ts2 items2 -> balanced (ts1 ++ ts2) (items1 ++ items2).
Proof.
  induction 1 as [|line ts items Hb He _ IH
                  |b e body inner ts items Hb He Hv Hbody _ Hts IHts];
    intros ts2 items2 H2; cbn [app].
  - exact H2.
  - constructor; auto.
  - rewrite <- app_assoc. cbn [app]. constructor; auto.
Qed.

Lemma balanced_flat_map (items : list pyobj) :
  Forall (fun v => balanced (tokens_of v) [v]) items ->
  balanced (flat_map tokens_of items) items.
Proof.
  induction 1 as [|v items Hv _ IH]; cbn [flat_map]; [constructor|].
  exact (balanced_app Hv IH).
Qed.

Lemma tokens_balanced (v : pyobj) :
  plain_tree v -> balanced (tokens_of v) [v].
Proof.
  induction v as [|z|s|l _|cl|name items IH] using pyobj_induction;
    intros Hv; try (inversion Hv; fail).
  - inversion Hv; subst. cbn [tokens_of]. constructor; auto. constructor.
  - inversion Hv as [|? ? Hitems]; subst. cbn [tokens_of].
    apply (@balanced_block (BEGIN name) (END name)
             (flat_map tokens_of items) items [] []);
      try reflexivity; [|constructor].
    apply balanced_flat_map.
    clear Hv. induction IH as [|x items Hx _ IHitems]; [constructor|].
    inversion Hitems; subst. constructor; auto.
Qed.

Lemma plain_trees_balanced (items : list pyobj) :
  Forall plain_tree items -> balanced (flat_map tokens_of items) items.
Proof.
  intros H. apply balanced_flat_map.
  induction H; constructor; auto using tokens_balanced.
Qed.

(** X7.  The builder undoes the flattening of trees into tokens: for
    lines that are not named BEGIN or END and containers of such lines and
    containers, at any depth, [parse] returns the trees whose tokens it is
    given; and [Container.parse] returns a container from the tokens that
    follow its BEGIN. *)
Theorem parse_tokens_of (items : list pyobj) :
  Forall plain_tree items ->
  parse (of_list (flat_map tokens_of items)) = Some (Ok items)
  /\ forall name rest,
       Container.parse name
         (prepend (flat_map tokens_of items) (Yield (END name) rest))
       = Some (Ok (Container.mk name items, rest)).
Proof.
  intros H. pose proof (plain_trees_balanced H) as Hb. split.
  - rewrite parse_run. unfold of_list. now rewrite (run_balanced Hb).
  - intros name rest. unfold Container.parse.
    rewrite (parse_loop_balanced Hb) by lia.
    rewrite size_prepend. cbn [size app].
    rewrite parse_loop_more with (fuel' := S (S (size rest)))
      by (cbn [size]; lia).
    rewrite parse_loop_END by reflexivity.
    change (ContentLine.value (END name)) with name.
    rewrite String.eqb_refl.
    now rewrite (init_ok _ (balanced_only_items Hb)).
Qed.

Lemma parse_tokens_of_witness :
  parse (of_list (flat_map tokens_of calendar_tree)) = Some (Ok calendar_tree).
Proof.
  apply (proj1 (@parse_tokens_of calendar_tree ltac:(repeat constructor))).
Defined.

Lemma run_no_BEGIN (ts : list ContentLine.t) :
  forallb (fun t => negb (is_BEGIN t)) ts = true ->
  forall res, Stack.run [] res (of_list ts) = Ok (res ++ map PyLine ts).
Proof.
  induction ts as [|t ts IH]; intros H res.
  - cbn. now rewrite app_nil_r.
  - cbn [forallb] in H. apply andb_true_iff in H. destruct H as [Ht Hts].
    apply negb_true_iff in Ht.
    change (of_list (t :: ts)) with (Yield t (of_list ts)).
    rewrite run_line by (assumption || now left).
    cbn [Stack.give fst snd map]. rewrite (IH Hts), <- app_assoc.
    reflexivity.
Qed.

(** X8.  Outside any block an END is a line like any other: when no token
    is named BEGIN, the top-level [parse] raises nothing and returns the
    tokens as they came, the ENDs among them. *)
Theorem parse_without_BEGIN (ts : list ContentLine.t) :
  forallb (fun t => negb (is_BEGIN t)) ts = true ->
  parse (of_list ts) = Some (Ok (map PyLine ts)).
Proof.
  intros H. rewrite parse_run. now rewrite (run_no_BEGIN _ H).
Qed.

Lemma parse_without_BEGIN_witness :
  parse (of_list [SUMMARY_x; END "VEVENT"; END "VTODO"])
  = Some (Ok (map PyLine [SUMMARY_x; END "VEVENT"; END "VTODO"])).
Proof.
  apply (@parse_without_BEGIN [SUMMARY_x; END "VEVENT"; END "VTODO"]).
  reflexivity.
Defined.

Lemma unwind_ok (frames : list Stack.frame) (res : list pyobj) :
  frames_ok frames -> exists tree, Stack.unwind frames res = Ok tree.
Proof.
  intros Hok.
  destruct (@unwind_closers (map fst frames) frames res eq_refl Hok)
    as (tree & H & _).
  now exists tree.
Qed.

Lemma run_error_prefix (ts : list ContentLine.t) :
  forall frames res e more,
    frames_ok frames ->
    Stack.run frames res (of_list ts) = Err e ->
    Stack.run frames res (prepend ts more) = Err e.
Proof.
  induction ts as [|line ts IH]; intros frames res e more Hok H.
  - cbn in H. destruct (unwind_ok res Hok) as [tree Ht]. congruence.
  - change (of_list (line :: ts)) with (Yield line (of_list ts)) in H.
    change (prepend (line :: ts) more) with (Yield line (prepend ts more)).
    destruct (is_BEGIN line) eqn:Hb.
    + cbn [Stack.run] in *. rewrite Hb in *.
      apply IH; [|exact H]. constructor; [constructor|assumption].
    + destruct frames as [|[name items] frames].
      * rewrite run_line in * by (assumption || now left).
        now apply IH.
      * inversion Hok as [|? ? Hitems Hrest]; subst. cbn [snd] in Hitems.
        destruct (is_END line) eqn:He.
        -- destruct (String.eqb_spec (ContentLine.value line) name)
             as [Hv|Hv].
           ++ rewrite run_END in * by assumption.
              apply IH; [|exact H].
              now apply (@give_ok frames res (PyContainer name items)).
           ++ cbn [Stack.run] in *. rewrite Hb, He in *.
              apply String.eqb_neq in Hv. rewrite Hv in *. exact H.
        -- rewrite run_line in * by (assumption || now right).
           apply IH; [|exact H]. cbn [Stack.give fst].
           constructor; [|assumption]. cbn [snd].
           apply only_items_app; [assumption|]. now repeat constructor.
Qed.

(** X9.  An error is final: when [parse] raises on a sequence of tokens,
    it raises the same error on every sequence that starts with these
    tokens.  Nothing that comes after a mismatched END is looked at. *)
Theorem parse_error_is_final (ts : list ContentLine.t) (e : exn)
  (more : gen ContentLine.t) :
  parse (of_list ts) = Some (Err e) ->
  parse (prepend ts more) = Some (Err e).
Proof.
  rewrite !parse_run. intros H. injection H as H.
  now rewrite (@run_error_prefix ts [] [] e more (Forall_nil _) H).
Qed.

Lemma parse_error_is_final_witness :
  parse (prepend [BEGIN "VEVENT"; END "VTODO"] (Raise (ParseError EmptyString)))
  = Some (Err (ParseError "Expected END:VEVENT, got END:VTODO")).
Proof.
  apply (@parse_error_is_final [BEGIN "VEVENT"; END "VTODO"]).
  reflexivity.
Defined.







(** ** Concatenation and copies of a container *)

(** X11.  For a container that keeps the invariant and values that are
    all lines or containers, [self + values] returns a new container with
    the name of [self] and the items of [self] followed by the values, and
    leaves [self] as it was; [self += values] puts the same list in [self];
    and [clone] returns a container with the same name and the same
    items. *)
Theorem Container_add_iadd_clone (values : pyobj) (vs : list pyobj)
  (self : Container.t) :
  invariant self -> iterate values = Ok vs -> only_items vs ->
  Container.__add__ values self
  = (Ok (Container.mk (Container.name self) (Container.items self ++ vs)),
     self)
  /\ Container.__iadd__ values self
     = (Ok tt,
        Container.mk (Container.name self) (Container.items self ++ vs))
  /\ Container.clone self = Ok self.
Proof.
  intros Hinv Hit Hvs. split; [|split].
  - unfold Container.__add__.
    rewrite (init_ok _ (Forall_nil _)), extend_Ok.
    cbn [Container.to_obj iterate]. rewrite (check_items_ok Hinv).
    rewrite extend_Ok, Hit, (check_items_ok Hvs). reflexivity.
  - unfold Container.__iadd__.
    rewrite extend_Ok, Hit, (check_items_ok Hvs). reflexivity.
  - unfold Container.clone. rewrite (init_ok _ Hinv). now destruct self.
Qed.

Lemma Container_add_iadd_clone_witness :
  Container.__add__ (PyContainer "VTODO" [PyLine dtstart])
    (Container.mk "VEVENT" [PyLine SUMMARY_x])
  = (Ok (Container.mk "VEVENT" [PyLine SUMMARY_x; PyLine dtstart]),
     Container.mk "VEVENT" [PyLine SUMMARY_x]).
Proof.
  apply (@Container_add_iadd_clone (PyContainer "VTODO" [PyLine dtstart])
           [PyLine dtstart] (Container.mk "VEVENT" [PyLine SUMMARY_x]));
    repeat constructor.
Defined.

(** ** The tokenizer as a generator *)

(** X12.  The tokenizer yields the token of each line for as long as the
    lines tokenize, and raises at the first line that does not: the tokens
    of the lines before it have been yielded, and nothing after it is
    read. *)
Theorem tokenize_line_prefix (lines : list string)
  (tokens : list ContentLine.t) :
  Forall2 (fun line token => ContentLine.parse line = Ok token) lines tokens ->
  (forall rest,
      tokenize_line (prepend lines rest) = prepend tokens (tokenize_line rest))
  /\ (forall bad e rest,
         ContentLine.parse bad = Err e ->
         tokenize_line (prepend lines (Yield bad rest))
         = prepend tokens (Raise e)).
Proof.
  intros H.
  assert (Hpre : forall rest,
             tokenize_line (prepend lines rest)
             = prepend tokens (tokenize_line rest)).
  { induction H as [|line token lines tokens Hline _ IH]; intros rest;
      [reflexivity|].
    change (prepend (line :: lines) rest)
      with (Yield line (prepend lines rest)).
    cbn [tokenize_line]. rewrite Hline, IH. reflexivity. }
  split; [exact Hpre|].
  intros bad e rest Hbad. rewrite Hpre. cbn [tokenize_line].
  now rewrite Hbad.
Qed.

Lemma tokenize_line_prefix_witness :
  tokenize_line (prepend ["SUMMARY:x"%string] (Yield "no colon"%string Stop))
  = prepend [SUMMARY_x] (Raise (ParseError EmptyString)).
Proof.
  apply (proj2 (@tokenize_line_prefix ["SUMMARY:x"%string] [SUMMARY_x]
                  ltac:(repeat constructor))).
  reflexivity.
Defined.

(** ** Equality of tokens, and the round trip of a token *)

Lemma list_eqb_refl (l : list string) : list_eqb String.eqb l l = true.
Proof.
  induction l as [|x l IH]; cbn; [reflexivity|].
  now rewrite String.eqb_refl, IH.
Qed.

Lemma dict_eqb_refl (d : Dict.t (list string)) :
  NoDup (Dict.keys d) -> ContentLine.dict_eqb d d = true.
Proof.
  intros Hnd. unfold ContentLine.dict_eqb. rewrite Nat.eqb_refl. cbn [andb].
  apply forallb_forall. intros [k v] Hin. cbn [fst snd].
  rewrite (@get_In d Hnd k v Hin). apply list_eqb_refl.
Qed.

(** X13.  For a token whose parameter values need no quotes (no double
    quote, comma, colon, semicolon or newline in them; names made of name
    characters, the name of the token in upper case; each parameter with
    at least one value), tokenizing what [__str__] prints gives the token
    back, with its parameters and their values in the same order, and the
    result is equal to the token under [==]. *)
Theorem tokenize_str_roundtrip (T : ContentLine.t) :
  bare_token T ->
  ContentLine.parse (ContentLine.str T) = Ok T
  /\ ContentLine.eqb T T = true
  /\ tokenize_line (of_list [ContentLine.str T]) = of_list [T].
Proof.
  intros H. pose proof (parse_str_bare H) as Hparse.
  destruct H as (_ & _ & Hnd & _).
  split; [exact Hparse|]. split.
  - unfold ContentLine.eqb.
    now rewrite !String.eqb_refl, (@dict_eqb_refl _ Hnd).
  - cbn [of_list prepend fold_right tokenize_line]. now rewrite Hparse.
Qed.

Lemma tokenize_str_roundtrip_witness :
  ContentLine.parse (ContentLine.str dtstart) = Ok dtstart
  /\ ContentLine.eqb dtstart dtstart = true
  /\ tokenize_line (of_list [ContentLine.str dtstart]) = of_list [dtstart].
Proof.
  apply (@tokenize_str_roundtrip dtstart).
  repeat split; try reflexivity.
  cbn. repeat constructor; cbn; intuition discriminate.
Defined.

(** ** Printing a container and reading it back *)

Lemma join_cons (sep x : string) (l : list string) :
  l <> [] -> join sep (x :: l) = (x ++ sep ++ join sep l)%string.
Proof. destruct l; [congruence|reflexivity]. Qed.

Lemma snoc_nonempty {A : Type} (l : list A) (x : A) : l ++ [x] <> [].
Proof. destruct l; discriminate. Qed.

Lemma join_app (sep : string) (l1 l2 : list string) :
  l1 <> [] -> l2 <> [] ->
  join sep (l1 ++ l2) = (join sep l1 ++ sep ++ join sep l2)%string.
Proof.
  intros H1 H2. induction l1 as [|x l1 IH]; [congruence|].
  destruct l1 as [|y l1].
  - cbn [app]. now rewrite join_cons.
  - change ((x :: y :: l1) ++ l2) with (x :: (y :: l1) ++ l2).
    rewrite join_cons by discriminate.
    rewrite IH by discriminate.
    rewrite (@join_cons sep x (y :: l1)) by discriminate.
    now rewrite !append_assoc.
Qed.

Lemma join_flat {A : Type} (sep : string) (f : A -> list string)
  (items : list A) (tail : list string) :
  Forall (fun x => f x <> []) items -> tail <> [] ->
  join sep (map (fun x => join sep (f x)) items ++ tail)
  = join sep (flat_map f items ++ tail).
Proof.
  intros H Htail. induction H as [|x items Hx _ IH]; [reflexivity|].
  cbn [map flat_map app]. rewrite <- app_assoc.
  rewrite join_cons by (destruct (map _ items); [assumption|discriminate]).
  rewrite IH.
  rewrite (@join_app sep (f x) (flat_map f items ++ tail));
    [reflexivity|assumption|].
  destruct (flat_map f items); [assumption|discriminate].
Qed.

Lemma all_some_map {A B : Type} (f : A -> option B) (g : A -> B)
  (l : list A) :
  Forall (fun x => f x = Some (g x)) l ->
  Container.all_some (map f l) = Some (map g l).
Proof.
  induction 1 as [|x l Hx _ IH]; [reflexivity|].
  cbn [map Container.all_some]. now rewrite Hx, IH.
Qed.

Lemma lines_of_flat_map (items : list pyobj) :
  map ContentLine.str (flat_map tokens_of items) = flat_map lines_of items.
Proof.
  induction items as [|x items IH]; [reflexivity|].
  cbn [flat_map]. now rewrite map_app, IH.
Qed.

Lemma lines_of_tree (v : pyobj) : tree v -> lines_of v <> [].
Proof.
  intros [cl|name items _]; discriminate.
Qed.

(** What [__str__] prints is the lines of the tokens of the tree, joined
    by CR LF. *)
Lemma str_of_tree (v : pyobj) :
  tree v -> Container.str_of v = Some (join Container.CRLF (lines_of v)).
Proof.
  induction v as [|z|s|l _|cl|name items IH] using pyobj_induction;
    intros Hv; try (inversion Hv; fail); [reflexivity|].
  inversion Hv as [|? ? Hitems]; subst.
  cbn [Container.str_of].
  rewrite (@all_some_map _ _ Container.str_of
             (fun x => join Container.CRLF (lines_of x)) items).
  - cbn [option_map]. f_equal.
    unfold lines_of at 2. cbn [tokens_of map].
    rewrite map_app, lines_of_flat_map. cbn [map].
    change (ContentLine.str (BEGIN name)) with ("BEGIN:" ++ name)%string.
    change (ContentLine.str (END name)) with ("END:" ++ name)%string.
    rewrite !join_cons by apply snoc_nonempty.
    f_equal. f_equal.
    apply join_flat; [|discriminate].
    clear IH Hv. induction Hitems as [|x items Hx _ IHi]; constructor;
      [now apply lines_of_tree|assumption].
  - clear Hv. induction IH as [|x items Hx _ IHi]; [constructor|].
    inversion Hitems; subst. constructor; auto.
Qed.

(** *** [splitlines] undoes the join *)

Lemma no_linebreak_cons (c : ascii) (s : string) :
  no_linebreak (String c s) = negb (is_linebreak c) && no_linebreak s.
Proof. reflexivity. Qed.

Lemma no_linebreak_app (a b : string) :
  no_linebreak (a ++ b) = no_linebreak a && no_linebreak b.
Proof.
  unfold no_linebreak. now rewrite chars_app, forallb_app.
Qed.

Lemma splitlines_line (x rest : string) :
  no_linebreak x = true ->
  splitlines (x ++ Container.CRLF ++ rest) = x :: splitlines rest.
Proof.
  induction x as [|c x IH]; intros H; [reflexivity|].
  rewrite no_linebreak_cons in H. apply andb_true_iff in H.
  destruct H as [Hc Hx]. apply negb_true_iff in Hc.
  cbn [String.append splitlines]. rewrite Hc.
  change (x ++ String CR (String LF rest))%string
    with (x ++ Container.CRLF ++ rest)%string.
  now rewrite (IH Hx).
Qed.

Lemma splitlines_last (x : string) :
  no_linebreak x = true -> x <> EmptyString -> splitlines x = [x].
Proof.
  induction x as [|c x IH]; intros H Hne; [congruence|].
  rewrite no_linebreak_cons in H. apply andb_true_iff in H.
  destruct H as [Hc Hx]. apply negb_true_iff in Hc.
  cbn [splitlines]. rewrite Hc.
  destruct x as [|d x]; [reflexivity|].
  now rewrite (IH Hx) by discriminate.
Qed.

Lemma splitlines_join (lines : list string) :
  Forall (fun l => no_linebreak l = true /\ l <> EmptyString) lines ->
  splitlines (join Container.CRLF lines) = lines.
Proof.
  induction 1 as [|x lines [Hx Hne] Hlines IH]; [reflexivity|].
  destruct lines as [|y lines].
  - now apply splitlines_last.
  - rewrite join_cons by discriminate.
    now rewrite (@splitlines_line x _ Hx), IH.
Qed.

(** *** The lines of readable tokens *)

Lemma name_char_not_space (c : ascii) :
  Grammar.is_name_char c = true ->
  isspace c = false /\ Ascii.eqb c SPACE || Ascii.eqb c TAB = false.
Proof.
  destruct c as [[] [] [] [] [] [] [] []]; intros H;
    try discriminate H; split; reflexivity.
Qed.

Lemma linebreak_cr (c : ascii) : is_linebreak c = false -> is_cr c = false.
Proof.
  intros H. destruct (is_cr c) eqn:Hc; [|reflexivity].
  apply Ascii.eqb_eq in Hc. subst c. discriminate H.
Qed.

Lemma lstrip_id (s : string) :
  no_linebreak s = true -> lstrip is_cr s = s.
Proof.
  destruct s as [|c s]; [reflexivity|]. rewrite no_linebreak_cons.
  intros H. apply andb_true_iff in H. destruct H as [Hc _].
  apply negb_true_iff in Hc. cbn. now rewrite (linebreak_cr _ Hc).
Qed.

Lemma rstrip_id (s : string) :
  no_linebreak s = true -> rstrip is_cr s = s.
Proof.
  induction s as [|c s IH]; [reflexivity|]. rewrite no_linebreak_cons.
  intros H. apply andb_true_iff in H. destruct H as [Hc Hs].
  apply negb_true_iff in Hc. cbn [rstrip]. rewrite (IH Hs).
  destruct s; [now rewrite (linebreak_cr _ Hc)|reflexivity].
Qed.

Lemma str_starts_with_name_char (t : ContentLine.t) :
  is_name (ContentLine.name t) = true ->
  exists c rest,
    ContentLine.str t = String c rest /\ Grammar.is_name_char c = true.
Proof.
  unfold is_name, ContentLine.str. intros H.
  apply andb_true_iff in H. destruct H as [Hne Hall].
  destruct (ContentLine.name t) as [|c n]; [discriminate Hne|].
  cbn in Hall. apply andb_true_iff in Hall. destruct Hall as [Hc _].
  eexists c, _. split; [reflexivity|exact Hc].
Qed.

Lemma readable_whole_line (t : ContentLine.t) :
  readable t ->
  whole_line (ContentLine.str t)
  /\ no_linebreak (ContentLine.str t) = true
  /\ ContentLine.str t <> EmptyString.
Proof.
  intros [(Hname & _) Hnl].
  destruct (str_starts_with_name_char t Hname) as (c & rest & Hstr & Hc).
  destruct (name_char_not_space _ Hc) as [Hsp Hst].
  split; [|split; [exact Hnl|rewrite Hstr; discriminate]].
  split; [|split].
  - rewrite Hstr. unfold nonblank, strip. cbn [lstrip]. rewrite Hsp.
    pose proof (@rstrip_head isspace c rest Hsp) as Hr.
    destruct (rstrip isspace (String c rest)); [congruence|reflexivity].
  - rewrite Hstr. cbn [starts_unfolded]. now rewrite Hst.
  - unfold strip. now rewrite (lstrip_id _ Hnl), (rstrip_id _ Hnl).
Qed.

Lemma unfold_whole_lines (lines : list string) :
  Forall whole_line lines ->
  unfold_lines (PyList (map PyStr lines)) = of_list lines.
Proof.
  intros H. unfold unfold_lines. cbn [is_Iterable negb iterate].
  rewrite unfold_loop_unfolded.
  - cbn [String.eqb app]. f_equal.
    induction H as [|l lines (Hnb & _ & Hstrip) _ IH]; [reflexivity|].
    cbn [filter]. rewrite Hnb. cbn [map]. now rewrite Hstrip, IH.
  - induction H as [|l lines (_ & Hst & _) _ IH]; [reflexivity|].
    cbn [forallb]. now rewrite Hst, IH.
Qed.

Lemma tokenize_bare (tokens : list ContentLine.t) :
  Forall bare_token tokens ->
  tokenize_line (of_list (map ContentLine.str tokens)) = of_list tokens.
Proof.
  induction 1 as [|t tokens Ht _ IH]; [reflexivity|].
  change (of_list (map ContentLine.str (t :: tokens)))
    with (Yield (ContentLine.str t) (of_list (map ContentLine.str tokens))).
  cbn [tokenize_line]. now rewrite (parse_str_bare Ht), IH.
Qed.

Lemma linebreak_newline (c : ascii) :
  negb (is_linebreak c) = true -> no_newline c = true.
Proof.
  intros H. unfold no_newline.
  destruct (Ascii.eqb_spec c LF) as [->|_]; [discriminate H|].
  destruct (Ascii.eqb_spec c CR) as [->|_]; [discriminate H|reflexivity].
Qed.

Lemma keyword_readable (name : string) :
  no_linebreak name = true -> readable (BEGIN name) /\ readable (END name).
Proof.
  intros H.
  assert (Hv : forallb no_newline (chars name) = true)
    by exact (forallb_impl _ _ _ linebreak_newline H).
  split; (split; [repeat split; try reflexivity; [constructor|exact Hv]|]).
  - change (ContentLine.str (BEGIN name)) with ("BEGIN:" ++ name)%string.
    now rewrite no_linebreak_app, H.
  - change (ContentLine.str (END name)) with ("END:" ++ name)%string.
    now rewrite no_linebreak_app, H.
Qed.

Lemma printable_readable (v : pyobj) :
  printable v -> Forall readable (tokens_of v).
Proof.
  induction v as [|z|s|l _|cl|name items IH] using pyobj_induction;
    intros Hv; try (inversion Hv; fail).
  - inversion Hv; subst. cbn [tokens_of].
    constructor; [split; assumption|constructor].
  - inversion Hv as [|? ? Hname Hitems]; subst. cbn [tokens_of].
    destruct (keyword_readable _ Hname) as [Hb He].
    constructor; [exact Hb|]. apply Forall_app. split; [|now constructor].
    clear Hv Hb He. induction IH as [|x items Hx _ IHi]; [constructor|].
    inversion Hitems; subst. cbn [flat_map]. apply Forall_app. split; auto.
Qed.

Lemma printable_plain (v : pyobj) : printable v -> plain_tree v.
Proof.
  induction v as [|z|s|l _|cl|name items IH] using pyobj_induction;
    intros Hv; try (inversion Hv; fail).
  - inversion Hv; subst. now constructor.
  - inversion Hv as [|? ? _ Hitems]; subst. constructor.
    clear Hv. induction IH as [|x items Hx _ IHi]; [constructor|].
    inversion Hitems; subst. constructor; auto.
Qed.

Lemma plain_tree_tree (v : pyobj) : plain_tree v -> tree v.
Proof.
  induction v as [|z|s|l _|cl|name items IH] using pyobj_induction;
    intros Hv; try (inversion Hv; fail).
  - constructor.
  - inversion Hv as [|? ? Hitems]; subst. constructor.
    clear Hv. induction IH as [|x items Hx _ IHi]; [constructor|].
    inversion Hitems; subst. constructor; auto.
Qed.

(** X14.  Printing a container and parsing the text gives the container
    back: when the lines of the tree need no quotes and are not named
    BEGIN or END, and neither a line nor the name of a block holds a line
    break, [__str__] prints the tree as its lines between BEGIN and END
    lines, joined by CR LF, and [calendar_string_to_containers] returns,
    for that text, the one container, with its name, its lines and its
    blocks in place. *)
Theorem parse_what_str_prints (c : Container.t) :
  printable (Container.to_obj c) ->
  Container.str c
  = Some (join Container.CRLF (lines_of (Container.to_obj c)))
  /\ calendar_string_to_containers
       (PyStr (join Container.CRLF (lines_of (Container.to_obj c))))
     = Some (Ok [Container.to_obj c]).
Proof.
  intros Hp. pose proof (printable_plain Hp) as Hplain.
  pose proof (printable_readable Hp) as Hread.
  split; [apply str_of_tree; now apply plain_tree_tree|].
  unfold calendar_string_to_containers, string_to_container,
    lines_to_container. cbn [is_str negb].
  rewrite splitlines_join.
  2:{ unfold lines_of. clear Hp Hplain.
      induction Hread as [|t ts Ht _ IH]; [constructor|].
      cbn [map]. constructor; [|exact IH].
      destruct (readable_whole_line Ht) as (_ & Hnl & Hne). now split. }
  rewrite unfold_whole_lines.
  2:{ unfold lines_of. clear Hp Hplain.
      induction Hread as [|t ts Ht _ IH]; [constructor|].
      cbn [map]. constructor; [|exact IH].
      now destruct (readable_whole_line Ht). }
  unfold lines_of. rewrite tokenize_bare.
  2:{ clear Hp Hplain. induction Hread as [|t ts [Ht _] _ IH];
        constructor; assumption. }
  rewrite parse_run. unfold of_list.
  pose proof (tokens_balanced Hplain) as Hb.
  now rewrite (run_balanced Hb).
Qed.

Lemma vevent_printable : printable (Container.to_obj vevent).
Proof.
  assert (Hnd : NoDup (Dict.keys (ContentLine.params dtstart)))
    by (cbn; repeat constructor; cbn; intuition discriminate).
  repeat (constructor; try reflexivity; try assumption).
Qed.

Lemma parse_what_str_prints_witness :
  Container.str vevent
  = Some (join Container.CRLF (lines_of (Container.to_obj vevent)))
  /\ calendar_string_to_containers
       (PyStr (join Container.CRLF (lines_of (Container.to_obj vevent))))
     = Some (Ok [Container.to_obj vevent]).
Proof.
  apply (@parse_what_str_prints vevent). exact vevent_printable.
Defined.

(** ** Line endings *)

Lemma splitlines_LF (x rest : string) :
  no_linebreak x = true ->
  splitlines (x ++ String LF rest) = x :: splitlines rest.
Proof.
  induction x as [|c x IH]; intros H; [reflexivity|].
  rewrite no_linebreak_cons in H. apply andb_true_iff in H.
  destruct H as [Hc Hx]. apply negb_true_iff in Hc.
  cbn [String.append splitlines]. now rewrite Hc, (IH Hx).
Qed.

Lemma splitlines_CR (x rest : string) :
  no_linebreak x = true -> starts_with_lf rest = false ->
  splitlines (x ++ String CR rest) = x :: splitlines rest.
Proof.
  intros H Hrest. induction x as [|c x IH].
  - cbn [String.append splitlines]. rewrite Hrest. reflexivity.
  - rewrite no_linebreak_cons in H. apply andb_true_iff in H.
    destruct H as [Hc Hx]. apply negb_true_iff in Hc.
    cbn [String.append splitlines]. now rewrite Hc, (IH Hx).
Qed.

Lemma join_starts (lines : list string) :
  Forall (fun x => no_linebreak x = true) lines ->
  starts_with_lf (join (String CR EmptyString) lines) = false.
Proof.
  intros H. destruct H as [|x lines Hx _]; [reflexivity|].
  destruct x as [|c x].
  - destruct lines; reflexivity.
  - rewrite no_linebreak_cons in Hx. apply andb_true_iff in Hx.
    destruct Hx as [Hc _].
    assert (Hlf : Ascii.eqb c LF = false).
    { destruct (Ascii.eqb_spec c LF) as [->|_];
        [discriminate Hc|reflexivity]. }
    destruct lines; cbn [join String.append starts_with_lf]; exact Hlf.
Qed.

Lemma splitlines_sep (sep : string) (lines : list string) (l : string) :
  is_line_ending sep ->
  Forall (fun x => no_linebreak x = true) (lines ++ [l]) ->
  l <> EmptyString ->
  splitlines (join sep (lines ++ [l])) = lines ++ [l].
Proof.
  intros Hsep H Hl. induction lines as [|x lines IH].
  - cbn [app join]. inversion H; subst. now apply splitlines_last.
  - cbn [app] in *. inversion H as [|? ? Hx Hrest]; subst.
    rewrite join_cons by apply snoc_nonempty.
    destruct Hsep as [->|[->| ->]].
    + rewrite (@splitlines_line x _ Hx). now rewrite IH.
    + cbn [String.append]. rewrite (@splitlines_LF x _ Hx).
      now rewrite IH.
    + cbn [String.append]. rewrite (@splitlines_CR x _ Hx).
      * now rewrite IH.
      * now apply join_starts.
Qed.

(** X15.  The line ending makes no difference: for lines that hold no
    line break, the last one not empty, joined by CR LF, by LF or by CR,
    [string_to_container] of the text is [lines_to_container] of the
    lines. *)
Theorem string_to_container_line_endings (sep : string)
  (lines : list string) (l : string) :
  is_line_ending sep ->
  Forall (fun x => no_linebreak x = true) (lines ++ [l]) ->
  l <> EmptyString ->
  string_to_container (PyStr (join sep (lines ++ [l])))
  = lines_to_container (PyList (map PyStr (lines ++ [l]))).
Proof.
  intros Hsep H Hl. unfold string_to_container.
  now rewrite (splitlines_sep lines Hsep H Hl).
Qed.

Lemma string_to_container_line_endings_witness :
  string_to_container
    (PyStr (join (String LF EmptyString)
              (["BEGIN:VEVENT"; "SUMMARY:x"] ++ ["END:VEVENT"])))
  = lines_to_container
      (PyList (map PyStr
                 (["BEGIN:VEVENT"; "SUMMARY:x"] ++ ["END:VEVENT"]))).
Proof.
  apply (@string_to_container_line_endings (String LF EmptyString)
           ["BEGIN:VEVENT"; "SUMMARY:x"] "END:VEVENT").
  - right. now left.
  - repeat constructor.
  - discriminate.
Defined.

(** ** Equality of tokens *)

(** X16.  Two tokens with the same name, the same value and the same
    parameters, each parameter name held once, are equal under [==]
    whatever the order of their parameters. *)
Theorem ContentLine_eqb_order (a b : ContentLine.t) :
  ContentLine.name a = ContentLine.name b ->
  ContentLine.value a = ContentLine.value b ->
  NoDup (Dict.keys (ContentLine.params a)) ->
  Permutation (ContentLine.params a) (ContentLine.params b) ->
  ContentLine.eqb a b = true.
Proof.
  intros Hname Hvalue Hnd Hperm. unfold ContentLine.eqb.
  rewrite Hname, Hvalue, !String.eqb_refl. cbn [andb].
  rewrite andb_true_r. unfold ContentLine.dict_eqb.
  rewrite (Permutation_length Hperm), Nat.eqb_refl. cbn [andb].
  assert (Hnd' : NoDup (Dict.keys (ContentLine.params b))).
  { unfold Dict.keys in *.
    exact (Permutation_NoDup (Permutation_map fst Hperm) Hnd). }
  apply forallb_forall. intros [k v] Hin. cbn [fst snd].
  rewrite (@get_In _ Hnd' k v (Permutation_in _ Hperm Hin)).
  apply list_eqb_refl.
Qed.

Lemma ContentLine_eqb_order_witness :
  ContentLine.eqb dtstart dtstart_swapped = true.
Proof.
  apply (@ContentLine_eqb_order dtstart dtstart_swapped);
    try reflexivity.
  - cbn. repeat constructor; cbn; intuition discriminate.
  - apply perm_swap.
Defined.
